(** * Orthoscan hub: the analyzer page and its usage logger

    A shallow embedding of [src/pages/OrthodonticAnalyzer.tsx] and
    [src/integrations/supabase/safeClient.ts].

    - JavaScript values are an inductive type with the language's notion of
      truthiness; [a || b] is [js_or].
    - [async] functions that can throw run in a small state-and-exception
      monad [Js]; [try { .. } catch (e) { .. }] is [try_catch].
    - The React component is a record [Session] holding the [useState]
      cells, the [useRef] cell, the browser's timer table and the pending
      asynchronous continuations, together with a trace of the effects the
      handlers perform (usage-log calls, toasts, PDF library calls).  Every
      handler of the component is a function [Session -> Session]; what the
      environment decides (the outcome of an awaited promise) is the payload
      of an [Event].

    The repository carries the page twice (the second copy differs in markup
    and in the wording of two toasts only); the handlers below follow
    [src/pages/OrthodonticAnalyzer.tsx]. *)

From Stdlib Require Import ZArith QArith Qround Lqa.
From stdpp Require Import gmap strings list pretty.
Close Scope Q_scope.

(** ** JavaScript values *)

#[warnings="-register-all"]
Inductive JsValue : Type :=
  | JUndefined
  | JNull
  | JBool (b : bool)
  | JNum (n : Z)
  | JNaN
  | JStr (s : string)
  | JError (message : string)                  (* an instance of Error *)
  | JObj (fields : list (string * JsValue)).   (* any other object *)

Definition nonempty (s : string) : bool :=
  match s with EmptyString => false | String _ _ => true end.

(** ToBoolean. *)
Definition truthy (v : JsValue) : bool :=
  match v with
  | JUndefined | JNull | JNaN => false
  | JBool b => b
  | JNum n => negb (n =? 0)%Z
  | JStr s => nonempty s
  | JError _ | JObj _ => true
  end.

(** [a || b] *)
Definition js_or (a b : JsValue) : JsValue := if truthy a then a else b.

(** An optional [string] parameter: omitted is [undefined]. *)
Definition of_optional (m : option string) : JsValue :=
  match m with None => JUndefined | Some s => JStr s end.

(** [error instanceof Error ? error.message : 'Unknown error'] *)
Definition errorMessageOf (error : JsValue) : string :=
  match error with JError m => m | _ => "Unknown error" end.

(** ** Completions: return or throw, over a mutable world *)

Inductive Completion (A : Type) : Type :=
  | Returned (a : A)
  | Thrown (e : JsValue).
Arguments Returned {A} a.
Arguments Thrown {A} e.

Definition Js (W A : Type) : Type := W -> Completion A * W.

Definition ret {W A} (a : A) : Js W A := fun w => (Returned a, w).

Definition throw {W A} (e : JsValue) : Js W A := fun w => (Thrown e, w).

Definition bind {W A B} (m : Js W A) (k : A -> Js W B) : Js W B :=
  fun w =>
    match m w with
    | (Returned a, w') => k a w'
    | (Thrown e, w') => (Thrown e, w')
    end.

Definition try_catch {W A} (body : Js W A) (handler : JsValue -> Js W A) : Js W A :=
  fun w =>
    match body w with
    | (Returned a, w') => (Returned a, w')
    | (Thrown e, w') => handler e w'
    end.

Definition modify {W} (f : W -> W) : Js W unit := fun w => (Returned tt, f w).

Definition gets {W A} (f : W -> A) : Js W A := fun w => (Returned (f w), w).

Declare Scope js_scope.
Delimit Scope js_scope with js.
Notation "'let*' x := m 'in' k" := (bind m (fun x => k))
  (at level 10, x name, m at level 100, k at level 200) : js_scope.
Notation "m ;;; k" := (bind m (fun _ => k))
  (at level 100, k at level 200, right associativity) : js_scope.

(** ** The usage logger ([logUsageEvent]) and the lazy client *)

Module Logger.

Inductive SupabaseClient : Type := supabase.

(** One row of [orthodontic_usage_logs], as the client sends it. *)
Record UsageRecord : Type := {
  event_type : string;
  session_id : string;
  metadata : JsValue;
  error_message : JsValue;
}.

(** What the browser holds between calls. *)
Record Browser : Type := {
  cachedClient : option SupabaseClient;
  sessionStorage : gmap string string;
  orthodontic_usage_logs : list UsageRecord;
  console : list JsValue;
}.

(** How the awaited [insert] settles: the row is stored; the promise resolves
    with an [{ error }] result and no row; or the promise rejects. *)
Inductive InsertOutcome : Type :=
  | InsertOk
  | InsertErrorResult (e : JsValue)
  | InsertRejects (e : JsValue).

(** What one call finds around it: the build-time variables, whether the
    dynamic [import("./client")] rejects, the text that
    [`session_${Date.now()}_${Math.random()...}`] evaluates to, and how the
    insert settles. *)
Record Env : Type := {
  VITE_SUPABASE_URL : JsValue;
  VITE_SUPABASE_PUBLISHABLE_KEY : JsValue;
  import_client : option JsValue;
  fresh_session_id : string;
  insert_outcome : InsertOutcome;
}.

Definition set_cachedClient (c : option SupabaseClient) (w : Browser) : Browser :=
  {| cachedClient := c; sessionStorage := sessionStorage w;
     orthodontic_usage_logs := orthodontic_usage_logs w; console := console w |}.

Definition setItem (k v : string) (w : Browser) : Browser :=
  {| cachedClient := cachedClient w; sessionStorage := <[k := v]> (sessionStorage w);
     orthodontic_usage_logs := orthodontic_usage_logs w; console := console w |}.

Definition push_row (r : UsageRecord) (w : Browser) : Browser :=
  {| cachedClient := cachedClient w; sessionStorage := sessionStorage w;
     orthodontic_usage_logs := orthodontic_usage_logs w ++ [r]; console := console w |}.

Definition console_error (e : JsValue) (w : Browser) : Browser :=
  {| cachedClient := cachedClient w; sessionStorage := sessionStorage w;
     orthodontic_usage_logs := orthodontic_usage_logs w; console := console w ++ [e] |}.

Local Open Scope js_scope.

(** safeClient.ts, [getSupabaseClient]. *)
Definition getSupabaseClient (env : Env) : Js Browser SupabaseClient :=
  let* cached := gets cachedClient in
  match cached with
  | Some c => ret c
  | None =>
      if negb (truthy (VITE_SUPABASE_URL env)) || negb (truthy (VITE_SUPABASE_PUBLISHABLE_KEY env))
      then throw (JError "Backend is not fully configured yet. Please try again in a moment.")
      else
        match import_client env with
        | Some e => throw e
        | None => modify (set_cachedClient (Some supabase)) ;;; ret supabase
        end
  end.

(** [getSessionId]: the stored identifier, or a fresh one that is stored. *)
Definition getSessionId (env : Env) : Js Browser string :=
  let* stored := gets (fun w => sessionStorage w !! "ortho_session_id") in
  match stored with
  | Some sessionId =>
      if nonempty sessionId then ret sessionId
      else modify (setItem "ortho_session_id" (fresh_session_id env)) ;;; ret (fresh_session_id env)
  | None => modify (setItem "ortho_session_id" (fresh_session_id env)) ;;; ret (fresh_session_id env)
  end.

(** The object literal passed to [insert]. *)
Definition usageRow (sessionId eventType : string) (metadata : JsValue)
    (errorMessage : option string) : UsageRecord :=
  {| event_type := eventType;
     session_id := sessionId;
     metadata := js_or metadata JNull;
     error_message := js_or (of_optional errorMessage) JNull |}.

Definition insert (env : Env) (r : UsageRecord) : Js Browser unit :=
  match insert_outcome env with
  | InsertOk => modify (push_row r)
  | InsertErrorResult _ => ret tt
  | InsertRejects e => throw e
  end.

Definition logUsageEvent (env : Env) (eventType : string) (metadata : JsValue)
    (errorMessage : option string) : Js Browser unit :=
  try_catch
    (let* _ := getSupabaseClient env in
     let* sessionId := getSessionId env in
     insert env (usageRow sessionId eventType metadata errorMessage))
    (fun error => modify (console_error error)).

End Logger.

(** ** The analyzer page ([OrthodonticAnalyzer]) *)

Module Analyzer.

Record File : Type := {
  file_name : string;
  file_type : string;
  file_size : Z;
}.

(** The result of the awaited [validateImageFile(file)]. *)
Record Validation : Type := {
  valid : bool;
  error : option string;
}.

(** The [data] of a resolved [functions.invoke]: [null], or the payload
    [{ analysis }] of the remote function. *)
Inductive ResponseData : Type :=
  | NoData
  | Analysis (analysis : string).

(** How the awaited [functions.invoke] settles. *)
Inductive InvokeOutcome : Type :=
  | InvokeThrows (e : JsValue)
  | Response (data : ResponseData) (error : JsValue).

(** The argument of [generatePDF] (the DOM reference [contentRef] is left out). *)
Record PdfRequest : Type := {
  pdf_title : string;
  pdf_fileName : string;
  pdf_content : string;
  pdf_images : list (string * string);   (* src, caption *)
}.

(** How the awaited [generatePDF] settles. *)
Inductive PdfOutcome : Type :=
  | PdfResolved (success : bool)
  | PdfRejected (e : JsValue).

(** The arguments of one [logUsageEvent(..)] call made by the page. *)
Record UsageCall : Type := {
  call_eventType : string;
  call_metadata : JsValue;
  call_errorMessage : option string;
}.

Record Toast : Type := {
  title : string;
  description : string;
  destructive : bool;
}.

(** The component: its [useState] cells, the [useRef] cell of the progress
    timer, the browser's table of live intervals (handle to the value of the
    callback's own counter [i]), the pending continuations, and the effects
    performed so far.  Interval handles are positive numbers, hence truthy. *)
Record Session : Type := mkSession {
  selectedImages : list string;
  imageFiles : list File;
  treatmentPlan : string;
  isAnalyzing : bool;
  progress : Z;
  isPdfGenerating : bool;
  showPdfDialog : bool;
  pdfSuccess : bool;
  progressIntervalRef : option positive;
  intervals : gmap positive Q;
  nextTimer : positive;
  completionTimeouts : list ResponseData;   (* the 500 ms [setTimeout]s, with their [data] *)
  pendingReads : nat;                       (* [FileReader]s still reading *)
  awaitingClient : list (list string);      (* [handleAnalyze] at [await getSupabaseClient()] *)
  inflight : list (list string);            (* [functions.invoke] requests, by [body.images] *)
  pendingPdf : nat;                         (* [handleGeneratePDF] at [await generatePDF(..)] *)
  pdfCalls : list PdfRequest;
  usageCalls : list UsageCall;
  toasts : list Toast;
}.

Definition setSelectedImages (v : list string) (s : Session) : Session :=
  mkSession v (imageFiles s) (treatmentPlan s) (isAnalyzing s) (progress s)
    (isPdfGenerating s) (showPdfDialog s) (pdfSuccess s) (progressIntervalRef s)
    (intervals s) (nextTimer s) (completionTimeouts s) (pendingReads s)
    (awaitingClient s) (inflight s) (pendingPdf s) (pdfCalls s) (usageCalls s)
    (toasts s).

Definition setImageFiles (v : list File) (s : Session) : Session :=
  mkSession (selectedImages s) v (treatmentPlan s) (isAnalyzing s) (progress s)
    (isPdfGenerating s) (showPdfDialog s) (pdfSuccess s) (progressIntervalRef s)
    (intervals s) (nextTimer s) (completionTimeouts s) (pendingReads s)
    (awaitingClient s) (inflight s) (pendingPdf s) (pdfCalls s) (usageCalls s)
    (toasts s).

Definition setTreatmentPlan (v : string) (s : Session) : Session :=
  mkSession (selectedImages s) (imageFiles s) v (isAnalyzing s) (progress s)
    (isPdfGenerating s) (showPdfDialog s) (pdfSuccess s) (progressIntervalRef s)
    (intervals s) (nextTimer s) (completionTimeouts s) (pendingReads s)
    (awaitingClient s) (inflight s) (pendingPdf s) (pdfCalls s) (usageCalls s)
    (toasts s).

Definition setIsAnalyzing (v : bool) (s : Session) : Session :=
  mkSession (selectedImages s) (imageFiles s) (treatmentPlan s) v (progress s)
    (isPdfGenerating s) (showPdfDialog s) (pdfSuccess s) (progressIntervalRef s)
    (intervals s) (nextTimer s) (completionTimeouts s) (pendingReads s)
    (awaitingClient s) (inflight s) (pendingPdf s) (pdfCalls s) (usageCalls s)
    (toasts s).

Definition setProgress (v : Z) (s : Session) : Session :=
  mkSession (selectedImages s) (imageFiles s) (treatmentPlan s) (isAnalyzing s) v
    (isPdfGenerating s) (showPdfDialog s) (pdfSuccess s) (progressIntervalRef s)
    (intervals s) (nextTimer s) (completionTimeouts s) (pendingReads s)
    (awaitingClient s) (inflight s) (pendingPdf s) (pdfCalls s) (usageCalls s)
    (toasts s).

Definition setIsPdfGenerating (v : bool) (s : Session) : Session :=
  mkSession (selectedImages s) (imageFiles s) (treatmentPlan s) (isAnalyzing s)
    (progress s) v (showPdfDialog s) (pdfSuccess s) (progressIntervalRef s)
    (intervals s) (nextTimer s) (completionTimeouts s) (pendingReads s)
    (awaitingClient s) (inflight s) (pendingPdf s) (pdfCalls s) (usageCalls s)
    (toasts s).

Definition setShowPdfDialog (v : bool) (s : Session) : Session :=
  mkSession (selectedImages s) (imageFiles s) (treatmentPlan s) (isAnalyzing s)
    (progress s) (isPdfGenerating s) v (pdfSuccess s) (progressIntervalRef s)
    (intervals s) (nextTimer s) (completionTimeouts s) (pendingReads s)
    (awaitingClient s) (inflight s) (pendingPdf s) (pdfCalls s) (usageCalls s)
    (toasts s).

Definition setPdfSuccess (v : bool) (s : Session) : Session :=
  mkSession (selectedImages s) (imageFiles s) (treatmentPlan s) (isAnalyzing s)
    (progress s) (isPdfGenerating s) (showPdfDialog s) v (progressIntervalRef s)
    (intervals s) (nextTimer s) (completionTimeouts s) (pendingReads s)
    (awaitingClient s) (inflight s) (pendingPdf s) (pdfCalls s) (usageCalls s)
    (toasts s).

Definition set_progressIntervalRef (v : option positive) (s : Session) : Session :=
  mkSession (selectedImages s) (imageFiles s) (treatmentPlan s) (isAnalyzing s)
    (progress s) (isPdfGenerating s) (showPdfDialog s) (pdfSuccess s) v (intervals s)
    (nextTimer s) (completionTimeouts s) (pendingReads s) (awaitingClient s)
    (inflight s) (pendingPdf s) (pdfCalls s) (usageCalls s) (toasts s).

Definition set_intervals (v : gmap positive Q) (s : Session) : Session :=
  mkSession (selectedImages s) (imageFiles s) (treatmentPlan s) (isAnalyzing s)
    (progress s) (isPdfGenerating s) (showPdfDialog s) (pdfSuccess s)
    (progressIntervalRef s) v (nextTimer s) (completionTimeouts s) (pendingReads s)
    (awaitingClient s) (inflight s) (pendingPdf s) (pdfCalls s) (usageCalls s)
    (toasts s).

Definition set_nextTimer (v : positive) (s : Session) : Session :=
  mkSession (selectedImages s) (imageFiles s) (treatmentPlan s) (isAnalyzing s)
    (progress s) (isPdfGenerating s) (showPdfDialog s) (pdfSuccess s)
    (progressIntervalRef s) (intervals s) v (completionTimeouts s) (pendingReads s)
    (awaitingClient s) (inflight s) (pendingPdf s) (pdfCalls s) (usageCalls s)
    (toasts s).

Definition set_completionTimeouts (v : list ResponseData) (s : Session) : Session :=
  mkSession (selectedImages s) (imageFiles s) (treatmentPlan s) (isAnalyzing s)
    (progress s) (isPdfGenerating s) (showPdfDialog s) (pdfSuccess s)
    (progressIntervalRef s) (intervals s) (nextTimer s) v (pendingReads s)
    (awaitingClient s) (inflight s) (pendingPdf s) (pdfCalls s) (usageCalls s)
    (toasts s).

Definition set_pendingReads (v : nat) (s : Session) : Session :=
  mkSession (selectedImages s) (imageFiles s) (treatmentPlan s) (isAnalyzing s)
    (progress s) (isPdfGenerating s) (showPdfDialog s) (pdfSuccess s)
    (progressIntervalRef s) (intervals s) (nextTimer s) (completionTimeouts s) v
    (awaitingClient s) (inflight s) (pendingPdf s) (pdfCalls s) (usageCalls s)
    (toasts s).

Definition set_awaitingClient (v : list (list string)) (s : Session) : Session :=
  mkSession (selectedImages s) (imageFiles s) (treatmentPlan s) (isAnalyzing s)
    (progress s) (isPdfGenerating s) (showPdfDialog s) (pdfSuccess s)
    (progressIntervalRef s) (intervals s) (nextTimer s) (completionTimeouts s)
    (pendingReads s) v (inflight s) (pendingPdf s) (pdfCalls s) (usageCalls s)
    (toasts s).

Definition set_inflight (v : list (list string)) (s : Session) : Session :=
  mkSession (selectedImages s) (imageFiles s) (treatmentPlan s) (isAnalyzing s)
    (progress s) (isPdfGenerating s) (showPdfDialog s) (pdfSuccess s)
    (progressIntervalRef s) (intervals s) (nextTimer s) (completionTimeouts s)
    (pendingReads s) (awaitingClient s) v (pendingPdf s) (pdfCalls s) (usageCalls s)
    (toasts s).

Definition set_pendingPdf (v : nat) (s : Session) : Session :=
  mkSession (selectedImages s) (imageFiles s) (treatmentPlan s) (isAnalyzing s)
    (progress s) (isPdfGenerating s) (showPdfDialog s) (pdfSuccess s)
    (progressIntervalRef s) (intervals s) (nextTimer s) (completionTimeouts s)
    (pendingReads s) (awaitingClient s) (inflight s) v (pdfCalls s) (usageCalls s)
    (toasts s).

Definition set_pdfCalls (v : list PdfRequest) (s : Session) : Session :=
  mkSession (selectedImages s) (imageFiles s) (treatmentPlan s) (isAnalyzing s)
    (progress s) (isPdfGenerating s) (showPdfDialog s) (pdfSuccess s)
    (progressIntervalRef s) (intervals s) (nextTimer s) (completionTimeouts s)
    (pendingReads s) (awaitingClient s) (inflight s) (pendingPdf s) v (usageCalls s)
    (toasts s).

Definition set_usageCalls (v : list UsageCall) (s : Session) : Session :=
  mkSession (selectedImages s) (imageFiles s) (treatmentPlan s) (isAnalyzing s)
    (progress s) (isPdfGenerating s) (showPdfDialog s) (pdfSuccess s)
    (progressIntervalRef s) (intervals s) (nextTimer s) (completionTimeouts s)
    (pendingReads s) (awaitingClient s) (inflight s) (pendingPdf s) (pdfCalls s) v
    (toasts s).

Definition set_toasts (v : list Toast) (s : Session) : Session :=
  mkSession (selectedImages s) (imageFiles s) (treatmentPlan s) (isAnalyzing s)
    (progress s) (isPdfGenerating s) (showPdfDialog s) (pdfSuccess s)
    (progressIntervalRef s) (intervals s) (nextTimer s) (completionTimeouts s)
    (pendingReads s) (awaitingClient s) (inflight s) (pendingPdf s) (pdfCalls s)
    (usageCalls s) v.

Definition initial : Session :=
  mkSession [] [] "" false 0 false false false None ∅ 1%positive [] 0 [] [] 0 [] [] [].

Notation "s |> f" := (f s) (at level 50, left associativity, only parsing).

(** *** Effects *)

Definition toast (t : Toast) (s : Session) : Session :=
  set_toasts (toasts s ++ [t]) s.

(** A call [logUsageEvent(eventType, metadata, errorMessage)]; the promise is
    not awaited. *)
Definition fire_logUsageEvent (eventType : string) (metadata : JsValue)
    (errorMessage : option string) (s : Session) : Session :=
  set_usageCalls (usageCalls s ++ [Build_UsageCall eventType metadata errorMessage]) s.

Definition clearInterval (id : positive) (s : Session) : Session :=
  set_intervals (delete id (intervals s)) s.

(** [if (progressIntervalRef.current) clearInterval(progressIntervalRef.current)] *)
Definition clearProgressInterval (s : Session) : Session :=
  match progressIntervalRef s with
  | Some id => clearInterval id s
  | None => s
  end.

(** [let i = 0; progressIntervalRef.current = setInterval(.., 1200)] *)
Definition startProgressInterval (s : Session) : Session :=
  let id := nextTimer s in
  s |> set_intervals (<[id := 0%Q]> (intervals s))
    |> set_nextTimer (Pos.succ id)
    |> set_progressIntervalRef (Some id).

(** [prev.filter((_, i) => i !== index)] *)
Fixpoint filter_index {A} (keep : nat -> bool) (i : nat) (l : list A) : list A :=
  match l with
  | [] => []
  | x :: l' =>
      if keep i then x :: filter_index keep (S i) l' else filter_index keep (S i) l'
  end.

Definition without {A} (index : nat) (l : list A) : list A :=
  filter_index (fun i => negb (i =? index)%nat) 0 l.

(** *** The progress timer *)

(** The body of the interval callback on its counter. *)
Definition advance (i : Q) : Q :=
  if Qlt_le_dec i 60 then (i + 2)%Q
  else if Qlt_le_dec i 90 then (i + 1)%Q
  else if Qlt_le_dec i 99 then (i + 0.5)%Q
  else i.

(** [Math.round]: the nearest integer, halves upwards.  The counter only takes
    multiples of 0.5, which the doubles of the source represent exactly. *)
Definition Math_round (x : Q) : Z := Qfloor (x + 0.5)%Q.

(** [Math.min(Math.round(i), 99)] *)
Definition emitted (i : Q) : Z := Z.min (Math_round i) 99.

(** One firing of the interval with handle [id] (nothing when it is not live). *)
Definition tick (id : positive) (s : Session) : Session :=
  match intervals s !! id with
  | None => s
  | Some i0 =>
      let i := advance i0 in
      let s' := s |> set_intervals (<[id := i]> (intervals s)) |> setProgress (emitted i) in
      if Qlt_le_dec i 99 then s' else clearProgressInterval s'
  end.

(** *** Handlers *)

(** [handleImageUpload], with the file of the change event and the result of
    the awaited validation. *)
Definition handleImageUpload (file : option File) (validation : Validation)
    (s : Session) : Session :=
  match file with
  | None => s
  | Some f =>
      if negb (valid validation) then
        s |> toast {| title := "Invalid file";
                      description :=
                        match error validation with
                        | Some e => if nonempty e then e else "Invalid image file"
                        | None => "Invalid image file"
                        end;
                      destructive := true |}
      else
        s |> set_pendingReads (S (pendingReads s))
          |> setImageFiles [f]
          |> setTreatmentPlan ""
          |> fire_logUsageEvent "upload"
               (JObj [("fileType", JStr (file_type f)); ("fileSize", JNum (file_size f))]) None
  end.

(** [reader.onload] *)
Definition readerLoaded (result : string) (s : Session) : Session :=
  match pendingReads s with
  | O => s
  | S n => s |> set_pendingReads n |> setSelectedImages [result]
  end.

Definition handleRemoveImage (index : nat) (s : Session) : Session :=
  s |> setSelectedImages (without index (selectedImages s))
    |> setImageFiles (without index (imageFiles s)).

(** [handleAnalyze] up to its first [await]. *)
Definition handleAnalyze (s : Session) : Session :=
  if (length (imageFiles s) =? 0)%nat then
    s |> toast {| title := "No image selected";
                  description := "Please upload a panorex image first";
                  destructive := true |}
  else
    s |> setIsAnalyzing true
      |> setProgress 0
      |> setTreatmentPlan ""
      |> fire_logUsageEvent "analysis_start" JUndefined None
      |> clearProgressInterval
      |> startProgressInterval
      |> set_awaitingClient (awaitingClient s ++ [selectedImages s]).

(** The [catch] block of [handleAnalyze]. *)
Definition analyzeCatch (error : JsValue) (s : Session) : Session :=
  s |> clearProgressInterval
    |> setProgress 0
    |> fire_logUsageEvent "analysis_error" JNull (Some (errorMessageOf error))
    |> toast {| title := "Analysis failed";
                description := "There was an error analyzing your image. Please try again.";
                destructive := true |}
    |> setIsAnalyzing false.

(** [await getSupabaseClient()] settles: [None] when it resolves (the request
    is then sent), [Some e] when it throws [e].  Pending continuations are
    taken oldest first; what they do does not depend on which one it is. *)
Definition clientSettled (failure : option JsValue) (s : Session) : Session :=
  match awaitingClient s with
  | [] => s
  | body :: rest =>
      let s' := set_awaitingClient rest s in
      match failure with
      | Some e => analyzeCatch e s'
      | None => set_inflight (inflight s' ++ [body]) s'
      end
  end.

(** [await supabase.functions.invoke(..)] settles. *)
Definition invokeSettled (o : InvokeOutcome) (s : Session) : Session :=
  match inflight s with
  | [] => s
  | _ :: rest =>
      let s' := set_inflight rest s in
      match o with
      | InvokeThrows e => analyzeCatch e s'
      | Response data error =>
          if truthy error then analyzeCatch error s'
          else
            s' |> setProgress 100
               |> set_completionTimeouts (completionTimeouts s' ++ [data])
      end
  end.

(** The callback of [setTimeout(.., 500)].  Reading [data.analysis] of a
    [null] throws a TypeError inside the callback, outside every [try]: the
    rest of the callback does not run.  (The inner timeout only scrolls.) *)
Definition completionTimeout (s : Session) : Session :=
  match completionTimeouts s with
  | [] => s
  | data :: rest =>
      let s' := set_completionTimeouts rest s in
      match data with
      | NoData => s'
      | Analysis analysis =>
          s' |> setTreatmentPlan analysis
             |> toast {| title := "Analysis complete";
                         description := "Your orthodontic treatment plan is ready";
                         destructive := false |}
             |> setIsAnalyzing false
             |> fire_logUsageEvent "analysis_success" JUndefined None
      end
  end.

Definition caption (index : nat) : string :=
  if (index =? 0)%nat then "Pano" else "Photo " +:+ pretty (index + 1)%nat.

(** [handleGeneratePDF] up to its [await]. *)
Definition handleGeneratePDF (s : Session) : Session :=
  if negb (nonempty (treatmentPlan s)) then
    s |> toast {| title := "No treatment plan";
                  description := "Please generate a treatment plan first";
                  destructive := true |}
  else
    let pdfImages := imap (fun index imgSrc => (imgSrc, caption index)) (selectedImages s) in
    s |> setIsPdfGenerating true
      |> setShowPdfDialog true
      |> setPdfSuccess false
      |> fire_logUsageEvent "pdf_export_start" JUndefined None
      |> set_pdfCalls (pdfCalls s ++
           [{| pdf_title := "Orthodontic Treatment Plan";
               pdf_fileName := "orthodontic-treatment-plan";
               pdf_content := treatmentPlan s;
               pdf_images := pdfImages |}])
      |> set_pendingPdf (S (pendingPdf s)).

(** The [catch] block of [handleGeneratePDF]. *)
Definition pdfCatch (error : JsValue) (s : Session) : Session :=
  s |> fire_logUsageEvent "pdf_export_error" JNull (Some (errorMessageOf error))
    |> setShowPdfDialog false
    |> toast {| title := "Export failed";
                description := "There was an error generating the PDF. Please try again.";
                destructive := true |}.

(** [await generatePDF(..)] settles; the [finally] block runs last. *)
Definition pdfSettled (o : PdfOutcome) (s : Session) : Session :=
  match pendingPdf s with
  | O => s
  | S n =>
      let s' := set_pendingPdf n s in
      (match o with
       | PdfResolved true =>
           s' |> setPdfSuccess true |> fire_logUsageEvent "pdf_export_success" JUndefined None
       | PdfResolved false => pdfCatch (JError "PDF generation failed") s'
       | PdfRejected e => pdfCatch e s'
       end) |> setIsPdfGenerating false
  end.

(** The dialog's Close button. *)
Definition dialogClose (s : Session) : Session :=
  s |> setShowPdfDialog false |> setPdfSuccess false |> setIsPdfGenerating false.

(** The dialog's [onOpenChange]. *)
Definition dialogOpenChange (open : bool) (s : Session) : Session :=
  if negb open && pdfSuccess s then dialogClose s else s.

Definition handleClearAll (s : Session) : Session :=
  s |> setSelectedImages []
    |> setImageFiles []
    |> setTreatmentPlan ""
    |> setProgress 0
    |> clearProgressInterval
    |> toast {| title := "Page cleared";
                description := "All images and results have been removed";
                destructive := false |}.

(** *** What is rendered *)

(** The report pane: the placeholder text, or a [div] whose inner HTML is set. *)
Inductive ReportPane : Type :=
  | Placeholder
  | InnerHTML (html : string).

(** [{!treatmentPlan ? <placeholder/> :
      <div dangerouslySetInnerHTML={{ __html: sanitizeHtml(treatmentPlan) }} />}];
    [sanitizeHtml] is imported from [@/utils/sanitizeHtml]. *)
Definition renderReport (sanitizeHtml : string -> string) (s : Session) : ReportPane :=
  if negb (nonempty (treatmentPlan s)) then Placeholder
  else InnerHTML (sanitizeHtml (treatmentPlan s)).

(** The controls; a button is [None] when it is not rendered and [Some d]
    when it is rendered with [disabled = d]. *)
Record Controls : Type := {
  clearAllButton : option bool;
  image : option string;
  removeImageButton : bool;
  analyzeButton : option bool;
  progressBar : option Z;
  exportButton : option bool;
  dialogOpen : bool;
  dialogCloseButton : bool;
}.

Definition has_image (s : Session) : bool := (0 <? length (selectedImages s))%nat.

Definition renderControls (s : Session) : Controls :=
  {| clearAllButton :=
       if has_image s || nonempty (treatmentPlan s) then Some (isAnalyzing s) else None;
     image := if has_image s then head (selectedImages s) else None;
     removeImageButton := has_image s;
     analyzeButton :=
       if has_image s
       then Some (isAnalyzing s || (length (selectedImages s) =? 0)%nat)
       else None;
     progressBar := if has_image s && isAnalyzing s then Some (progress s) else None;
     exportButton := if nonempty (treatmentPlan s) then Some (isPdfGenerating s) else None;
     dialogOpen := showPdfDialog s;
     dialogCloseButton := showPdfDialog s && pdfSuccess s |}.

(** *** Events *)

Inductive Event : Type :=
  | EUpload (file : option File) (validation : Validation)
  | EReaderLoaded (result : string)
  | ERemoveImage (index : nat)
  | EAnalyze
  | ETick (id : positive)
  | EClientSettled (failure : option JsValue)
  | EInvokeSettled (o : InvokeOutcome)
  | ECompletionTimeout
  | EGeneratePDF
  | EPdfSettled (o : PdfOutcome)
  | EDialogOpenChange (open : bool)
  | EDialogClose
  | EClearAll.

Definition step (e : Event) (s : Session) : Session :=
  match e with
  | EUpload file validation => handleImageUpload file validation s
  | EReaderLoaded result => readerLoaded result s
  | ERemoveImage index => handleRemoveImage index s
  | EAnalyze => handleAnalyze s
  | ETick id => tick id s
  | EClientSettled failure => clientSettled failure s
  | EInvokeSettled o => invokeSettled o s
  | ECompletionTimeout => completionTimeout s
  | EGeneratePDF => handleGeneratePDF s
  | EPdfSettled o => pdfSettled o s
  | EDialogOpenChange open => dialogOpenChange open s
  | EDialogClose => dialogClose s
  | EClearAll => handleClearAll s
  end.

(** The events in the order they happen. *)
Definition run (es : list Event) (s : Session) : Session :=
  foldl (fun s e => step e s) s es.

(** States the handlers can produce, whoever calls them. *)
Inductive reachable : Session -> Prop :=
  | reachable_initial : reachable initial
  | reachable_step e s : reachable s -> reachable (step e s).

(** Whether the page, as rendered, lets the event happen: a click needs its
    button rendered and not disabled; the environment's events are not gated
    (their handlers do nothing when nothing is pending). *)
Definition enabled (s : Session) (e : Event) : bool :=
  let c := renderControls s in
  match e with
  | EAnalyze => match analyzeButton c with Some false => true | _ => false end
  | EClearAll => match clearAllButton c with Some false => true | _ => false end
  | ERemoveImage index => removeImageButton c && (index =? 0)%nat
  | EGeneratePDF => match exportButton c with Some false => true | _ => false end
  | EDialogClose => dialogCloseButton c
  | EDialogOpenChange _ => dialogOpen c
  | _ => true
  end.

(** States reachable through the rendered page. *)
Inductive ui_reachable : Session -> Prop :=
  | ui_initial : ui_reachable initial
  | ui_step e s : ui_reachable s -> enabled s e = true -> ui_reachable (step e s).

(** Requests of [handleAnalyze] that have not settled. *)
Definition pendingAnalyses (s : Session) : nat :=
  length (awaitingClient s) + length (inflight s).

End Analyzer.

(** ** A stand-in for the imported sanitizer *)

Module SpecSanitizer.

Fixpoint drop_string (n : nat) (s : string) : string :=
  match n, s with
  | O, _ => s
  | S n', String _ s' => drop_string n' s'
  | S _, EmptyString => EmptyString
  end.

(** The characters [<], [>] and [/]. *)
Definition less_than : Ascii.ascii := Ascii.ascii_of_nat 60.
Definition greater_than : Ascii.ascii := Ascii.ascii_of_nat 62.
Definition slash : Ascii.ascii := Ascii.ascii_of_nat 47.

(** The text up to the first [stop], and what follows it. *)
Fixpoint split_at (stop : Ascii.ascii) (s : string) : option (string * string) :=
  match s with
  | EmptyString => None
  | String c s' =>
      if Ascii.eqb c stop then Some (EmptyString, s')
      else match split_at stop s' with
           | Some (before, rest) => Some (String c before, rest)
           | None => None
           end
  end.

Definition lower (c : Ascii.ascii) : Ascii.ascii :=
  let n := Ascii.nat_of_ascii c in
  if (65 <=? n)%nat && (n <=? 90)%nat then Ascii.ascii_of_nat (n + 32) else c.

Definition alphanumeric (c : Ascii.ascii) : bool :=
  let n := Ascii.nat_of_ascii c in
  ((48 <=? n)%nat && (n <=? 57)%nat)
  || ((65 <=? n)%nat && (n <=? 90)%nat)
  || ((97 <=? n)%nat && (n <=? 122)%nat).

Fixpoint lower_string (s : string) : string :=
  match s with
  | EmptyString => EmptyString
  | String c s' => String (lower c) (lower_string s')
  end.

(** What follows the first occurrence of [close] in [s], whatever its case
    (nothing when there is none); [close] is in lower case. *)
Fixpoint after (close s : string) : string :=
  if String.prefix close (lower_string s) then drop_string (String.length close) s
  else match s with
       | EmptyString => EmptyString
       | String _ s' => after close s'
       end.

(** The leading letters and digits, in lower case. *)
Fixpoint leading_name (s : string) : string :=
  match s with
  | EmptyString => EmptyString
  | String c s' => if alphanumeric c then String (lower c) (leading_name s') else EmptyString
  end.

(** Of what stands between [<] and [>]: whether it closes, and the tag name. *)
Definition tag_of (inside : string) : bool * string :=
  match inside with
  | String c s' =>
      if Ascii.eqb c slash then (true, leading_name s') else (false, leading_name inside)
  | EmptyString => (false, EmptyString)
  end.

(** The structural and formatting tags that are kept (without attributes). *)
Definition allowed_tags : list string :=
  ["p"; "br"; "hr"; "div"; "span"; "h1"; "h2"; "h3"; "h4"; "h5"; "h6";
   "ul"; "ol"; "li"; "strong"; "em"; "b"; "i"; "u"; "blockquote";
   "table"; "thead"; "tbody"; "tr"; "th"; "td"].

(** Elements that are removed with their content. *)
Definition removed_elements : list string := ["script"; "style"].

Definition listed (name : string) (names : list string) : bool :=
  existsb (String.eqb name) names.

Fixpoint sanitize (fuel : nat) (s : string) : string :=
  match fuel with
  | O => EmptyString
  | S fuel' =>
      match s with
      | EmptyString => EmptyString
      | String c s' =>
          if Ascii.eqb c less_than then
            match split_at greater_than s' with
            | None => EmptyString                      (* a tag that never ends *)
            | Some (inside, rest) =>
                let (closing, name) := tag_of inside in
                if listed name removed_elements then
                  if closing then sanitize fuel' rest
                  else sanitize fuel' (after ("</" +:+ name +:+ ">") rest)
                else if listed name allowed_tags then
                  "<" +:+ (if closing then "/" else "") +:+ name +:+ ">"
                      +:+ sanitize fuel' rest
                else sanitize fuel' rest
            end
          else String c (sanitize fuel' s')
      end
  end.

(** Modelled from the spec: [sanitizeHtml] of [@/utils/sanitizeHtml], a module
    that is not among the sources.  After section 4.2: script and style
    elements are removed with their content, every attribute (event handlers
    included) is dropped, a tag is kept only when its name is on the
    allow-list, and text is kept.  The output holds no [<] other than those
    of bare allowed tags, which is what makes a second pass return it as it
    is (see the examples at the end).  Which tags the real allow-list holds
    is not in the spec; the list above is a choice.  The page's theorems take
    the sanitizer as a parameter; this one instantiates it at concrete
    inputs. *)
Definition sanitizeHtml (s : string) : string :=
  sanitize (S (String.length s)) s.

End SpecSanitizer.

(** ** Scenarios and classifiers used in the statements *)

Module Scenario.
Import Analyzer.

Definition pano : File :=
  {| file_name := "pano.png"; file_type := "image/png"; file_size := 512000 |}.

Definition accepted : Validation := {| valid := true; error := None |}.

Definition pano_url : string := "data:image/png;base64,iVBORw0KGgo=".

(** A valid image is uploaded and read. *)
Definition uploaded : list Event :=
  [EUpload (Some pano) accepted; EReaderLoaded pano_url].

(** ... and Generate is clicked; the client is ready and the request is sent. *)
Definition requested : list Event :=
  uploaded ++ [EAnalyze; EClientSettled None].

(** ... the timer fires once, the remote function answers with a report, and
    the 500 ms callback runs. *)
Definition reported (analysis : string) : list Event :=
  requested ++ [ETick 1%positive;
                EInvokeSettled (Response (Analysis analysis) JNull);
                ECompletionTimeout].

(** ... the remote function answers with no error and no data. *)
Definition answered_null : list Event :=
  requested ++ [EInvokeSettled (Response NoData JNull); ECompletionTimeout].

(** [enabled] along a trace. *)
Fixpoint admissible (es : list Event) (s : Session) : bool :=
  match es with
  | [] => true
  | e :: es' => enabled s e && admissible es' (step e s)
  end.

(** The failure an event reports to [handleAnalyze], if any: the client's
    construction throws, the invocation throws, or the response carries an
    error. *)
Definition analysisFailure (ev : Event) : option JsValue :=
  match ev with
  | EClientSettled (Some e) => Some e
  | EInvokeSettled (InvokeThrows e) => Some e
  | EInvokeSettled (Response _ e) => if truthy e then Some e else None
  | _ => None
  end.

(** Whether a continuation of [handleAnalyze] is waiting for the event. *)
Definition awaited (ev : Event) (s : Session) : bool :=
  match ev with
  | EClientSettled _ => (0 <? length (awaitingClient s))%nat
  | EInvokeSettled _ => (0 <? length (inflight s))%nat
  | _ => false
  end.

(** [n] firings of the interval [id]. *)
Fixpoint ticks (id : positive) (n : nat) (s : Session) : Session :=
  match n with
  | O => s
  | S n' => tick id (ticks id n' s)
  end.

(** The page's intervals all belong to the [useRef] cell. *)
Definition timers_owned (s : Session) : Prop :=
  forall id i, intervals s !! id = Some i -> progressIntervalRef s = Some id.

(** At most one analysis is under way, and none when [isAnalyzing] is off. *)
Definition single_flight (s : Session) : Prop :=
  (length (awaitingClient s) + length (inflight s) + length (completionTimeouts s) <= 1)%nat
  /\ (isAnalyzing s = false ->
      awaitingClient s = [] /\ inflight s = [] /\ completionTimeouts s = []).

(** A response with a report arrives, the timer fires as listed, and the
    500 ms callback runs. *)
Definition completed (analysis : string) (error : JsValue) (firings : list positive)
    (s : Session) : Session :=
  completionTimeout
    (run (map ETick firings) (invokeSettled (Response (Analysis analysis) error) s)).

(** The client is available: cached, or configured and importable. *)
Definition client_available (env : Logger.Env) (w : Logger.Browser) : bool :=
  match Logger.cachedClient w with
  | Some _ => true
  | None =>
      truthy (Logger.VITE_SUPABASE_URL env)
      && truthy (Logger.VITE_SUPABASE_PUBLISHABLE_KEY env)
      && match Logger.import_client env with None => true | Some _ => false end
  end.

(** A configured backend whose insert succeeds, and a tab that has logged nothing. *)
Definition configured : Logger.Env :=
  {| Logger.VITE_SUPABASE_URL := JStr "https://project.supabase.co";
     Logger.VITE_SUPABASE_PUBLISHABLE_KEY := JStr "publishable-key";
     Logger.import_client := None;
     Logger.fresh_session_id := "session_1700000000000_k3j9x2m1q";
     Logger.insert_outcome := Logger.InsertOk |}.

Definition fresh_tab : Logger.Browser :=
  {| Logger.cachedClient := None; Logger.sessionStorage := ∅;
     Logger.orthodontic_usage_logs := []; Logger.console := [] |}.

End Scenario.

(** ** The sign-in page ([Auth], the second component of [src/pages/FAQ.tsx]) *)

Module Auth.

(** A call made to [supabase.auth]. *)
Inductive AuthCall : Type :=
  | SignInWithPassword (email password : string)
  | SignUp (email password emailRedirectTo : string).

(** How the awaited call settles: it resolves with an [{ error }] result
    ([null] when there is none), or it rejects. *)
Inductive AuthOutcome : Type :=
  | AuthResolves (error : JsValue)
  | AuthRejects (e : JsValue).

Record AuthToast : Type := {
  toast_title : string;
  toast_description : JsValue;
  toast_destructive : bool;
}.

(** The form's [useState] cells, the browser the lazy client lives in, and
    the effects of [handleAuth] so far. *)
Record Page : Type := {
  isLogin : bool;
  email : string;
  password : string;
  loading : bool;
  browser : Logger.Browser;
  authCalls : list AuthCall;
  authToasts : list AuthToast;
}.

(** What one submission finds around it. *)
Record AuthEnv : Type := {
  backend : Logger.Env;
  origin : string;                 (* [window.location.origin] *)
  auth_outcome : AuthOutcome;
}.

Definition setLoading (v : bool) (p : Page) : Page :=
  {| isLogin := isLogin p; email := email p; password := password p; loading := v;
     browser := browser p; authCalls := authCalls p; authToasts := authToasts p |}.

Definition setIsLogin (v : bool) (p : Page) : Page :=
  {| isLogin := v; email := email p; password := password p; loading := loading p;
     browser := browser p; authCalls := authCalls p; authToasts := authToasts p |}.

Definition set_browser (w : Logger.Browser) (p : Page) : Page :=
  {| isLogin := isLogin p; email := email p; password := password p; loading := loading p;
     browser := w; authCalls := authCalls p; authToasts := authToasts p |}.

Definition push_call (c : AuthCall) (p : Page) : Page :=
  {| isLogin := isLogin p; email := email p; password := password p; loading := loading p;
     browser := browser p; authCalls := authCalls p ++ [c]; authToasts := authToasts p |}.

Definition push_toast (t : AuthToast) (p : Page) : Page :=
  {| isLogin := isLogin p; email := email p; password := password p; loading := loading p;
     browser := browser p; authCalls := authCalls p; authToasts := authToasts p ++ [t] |}.

(** A computation on the browser, run inside the page. *)
Definition in_browser {A} (m : Js Logger.Browser A) : Js Page A :=
  fun p =>
    match m (browser p) with
    | (c, w) => (c, set_browser w p)
    end.

(** [try { body } finally { final }] *)
Definition try_finally {W A} (body : Js W A) (final : Js W unit) : Js W A :=
  fun w =>
    match body w with
    | (c, w') =>
        match final w' with
        | (Returned _, w'') => (c, w'')
        | (Thrown e, w'') => (Thrown e, w'')
        end
    end.

Fixpoint property (key : string) (fields : list (string * JsValue)) : JsValue :=
  match fields with
  | [] => JUndefined
  | (k, v) :: rest => if String.eqb k key then v else property key rest
  end.

(** [error?.message] *)
Definition optional_message (error : JsValue) : JsValue :=
  match error with
  | JError m => JStr m
  | JObj fields => property "message" fields
  | _ => JUndefined
  end.

(** The awaited [supabase.auth] call: the call is recorded, then it settles;
    [if (error) throw error]. *)
Definition call_auth (env : AuthEnv) (c : AuthCall) : Js Page unit :=
  bind (modify (push_call c))
       (fun _ =>
          match auth_outcome env with
          | AuthRejects e => throw e
          | AuthResolves error => if truthy error then throw error else ret tt
          end).

Local Open Scope js_scope.

(** [handleAuth], with the cells read when the form is submitted. *)
Definition handleAuth (env : AuthEnv) : Js Page unit :=
  let* submitted := gets (fun p => p) in
  modify (setLoading true) ;;;
  try_finally
    (try_catch
       (let* _ := in_browser (Logger.getSupabaseClient (backend env)) in
        if isLogin submitted then
          call_auth env (SignInWithPassword (email submitted) (password submitted)) ;;;
          modify (push_toast {| toast_title := "Success";
                                toast_description := JStr "Logged in successfully";
                                toast_destructive := false |})
        else
          call_auth env (SignUp (email submitted) (password submitted)
                                (origin env +:+ "/ortho-internal-stats")) ;;;
          modify (push_toast {| toast_title := "Success";
                                toast_description := JStr "Account created! You can now log in.";
                                toast_destructive := false |}) ;;;
          modify (setIsLogin true))
       (fun error =>
          modify (push_toast
                    {| toast_title := "Error";
                       toast_description :=
                         js_or (optional_message error)
                               (JStr "Authentication failed. Please try again.");
                       toast_destructive := true |})))
    (modify (setLoading false)).

(** *** The effect that watches the session *)

(** Where [initAuth] stands. *)
Inductive Stage : Type :=
  | AwaitingClient
  | AwaitingSession
  | Settled (returned_cleanup : bool).   (* the promise resolved, with the cleanup or [undefined] *)

(** One run of the effect: its [isMounted] variable, the stage of
    [initAuth], whether the effect's own cleanup has run and whether its
    [then] callback is still to run, the listener registered with
    [onAuthStateChange], and what was called. *)
Record Effect : Type := {
  isMounted : bool;
  stage : Stage;
  cleanupQueued : bool;
  listening : bool;
  unsubscribed : nat;
  navigations : list string;
  effect_console : list JsValue;
}.

Definition mounted : Effect :=
  {| isMounted := true; stage := AwaitingClient; cleanupQueued := false;
     listening := false; unsubscribed := 0; navigations := [];
     effect_console := [] |}.

Inductive EffectEvent : Type :=
  | ClientSettled (failure : option JsValue)
  | SessionSettled (outcome : Completion bool)   (* whether [session] is truthy *)
  | AuthStateChange (session : bool)
  | Unmount
  | ThenCallback.

Definition navigate (path : string) (e : Effect) : Effect :=
  {| isMounted := isMounted e; stage := stage e; cleanupQueued := cleanupQueued e;
     listening := listening e; unsubscribed := unsubscribed e;
     navigations := navigations e ++ [path]; effect_console := effect_console e |}.

Definition set_stage (st : Stage) (e : Effect) : Effect :=
  {| isMounted := isMounted e; stage := st; cleanupQueued := cleanupQueued e;
     listening := listening e; unsubscribed := unsubscribed e;
     navigations := navigations e; effect_console := effect_console e |}.

(** The [catch] block of [initAuth]: the promise resolves with [undefined]. *)
Definition initFailed (error : JsValue) (e : Effect) : Effect :=
  {| isMounted := isMounted e; stage := Settled false; cleanupQueued := cleanupQueued e;
     listening := listening e; unsubscribed := unsubscribed e;
     navigations := navigations e; effect_console := effect_console e ++ [error] |}.

(** [onAuthStateChange(..)] registers the listener; [initAuth] returns its cleanup. *)
Definition subscribe (e : Effect) : Effect :=
  {| isMounted := isMounted e; stage := Settled true; cleanupQueued := cleanupQueued e;
     listening := true; unsubscribed := unsubscribed e;
     navigations := navigations e; effect_console := effect_console e |}.

(** The cleanup [initAuth] returns: [if (isMounted) subscription.unsubscribe()]. *)
Definition returnedCleanup (e : Effect) : Effect :=
  if isMounted e then
    {| isMounted := isMounted e; stage := stage e; cleanupQueued := cleanupQueued e;
       listening := false; unsubscribed := S (unsubscribed e);
       navigations := navigations e; effect_console := effect_console e |}
  else e.

Definition effect_step (ev : EffectEvent) (e : Effect) : Effect :=
  match ev, stage e with
  | ClientSettled None, AwaitingClient => set_stage AwaitingSession e
  | ClientSettled (Some error), AwaitingClient => initFailed error e
  | SessionSettled (Thrown error), AwaitingSession => initFailed error e
  | SessionSettled (Returned session), AwaitingSession =>
      subscribe (if session && isMounted e then navigate "/ortho-internal-stats" e else e)
  | AuthStateChange session, _ =>
      if listening e && session then navigate "/ortho-internal-stats" e else e
  | Unmount, _ =>
      (* [isMounted = false; cleanupPromise.then(..)] *)
      {| isMounted := false; stage := stage e; cleanupQueued := true;
         listening := listening e; unsubscribed := unsubscribed e;
         navigations := navigations e; effect_console := effect_console e |}
  | ThenCallback, Settled returned_cleanup =>
      if cleanupQueued e then
        let e' :=
          {| isMounted := isMounted e; stage := stage e; cleanupQueued := false;
             listening := listening e; unsubscribed := unsubscribed e;
             navigations := navigations e; effect_console := effect_console e |} in
        (* [if (typeof cleanup === "function") cleanup()] *)
        if returned_cleanup then returnedCleanup e' else e'
      else e
  | _, _ => e
  end.

Definition effect_run (evs : list EffectEvent) (e : Effect) : Effect :=
  foldl (fun e ev => effect_step ev e) e evs.

End Auth.

(** ** Roles and row-level security (the migration under [supabase/migrations]) *)

Module Roles.

(** [CREATE TYPE public.app_role AS ENUM ('admin', 'moderator', 'user')] *)
Inductive app_role : Type := admin | moderator | user.

Definition app_role_eqb (a b : app_role) : bool :=
  match a, b with
  | admin, admin | moderator, moderator | user, user => true
  | _, _ => false
  end.

(** A row of [public.user_roles]; [id] and [created_at] take their defaults
    and are left out.  Identifiers are numbers. *)
Record user_role : Type := {
  user_id : N;
  role : app_role;
}.

(** Who runs a statement through the API: the [anon] role, for which
    [auth.uid()] is null, or the [authenticated] role with its [auth.uid()]. *)
Inductive Caller : Type :=
  | Anon
  | Authenticated (uid : N).

(** [public.has_role(_user_id, _role)]:
    [SELECT EXISTS (SELECT 1 FROM public.user_roles
                    WHERE user_id = _user_id AND role = _role)] *)
Definition has_role (user_roles : list user_role) (_user_id : N) (_role : app_role) : bool :=
  existsb (fun r => (user_id r =? _user_id)%N && app_role_eqb (role r) _role) user_roles.

(** "Users can read their own roles":
    [FOR SELECT TO authenticated USING (user_id = auth.uid())] *)
Definition reads_own (c : Caller) (r : user_role) : bool :=
  match c with
  | Authenticated uid => (user_id r =? uid)%N
  | Anon => false
  end.

(** "Admins can manage all roles" and "Allow admins to read all logs":
    [TO authenticated USING (public.has_role(auth.uid(), 'admin'))]; for
    [user_roles] the same expression is the [WITH CHECK]. *)
Definition is_admin (user_roles : list user_role) (c : Caller) : bool :=
  match c with
  | Authenticated uid => has_role user_roles uid admin
  | Anon => false
  end.

(** [SELECT] on [user_roles]: the rows some permissive policy lets through. *)
Definition select_roles (user_roles : list user_role) (c : Caller) : list user_role :=
  List.filter (fun r => reads_own c r || is_admin user_roles c) user_roles.

(** Statements that write [user_roles]. *)
Inductive RoleStatement : Type :=
  | InsertRole (r : user_role)
  | DeleteRoles (matching : user_role -> bool)
  | UpdateRoles (matching : user_role -> bool) (assign : user_role -> user_role).

(** [UPDATE], row by row in table order.  A row the statement touches is
    replaced by [assign] of it; the index of [UNIQUE (user_id, role)] is not
    deferrable, so each replacement is checked when it is made, against the
    other rows as they stand at that moment (those already replaced, and
    those still to come with their old values).  [None]: the statement
    fails with a duplicate key. *)
Fixpoint update_rows (touches : user_role -> bool) (assign : user_role -> user_role)
    (done todo : list user_role) : option (list user_role) :=
  match todo with
  | [] => Some done
  | r :: rest =>
      if touches r then
        if has_role (done ++ rest) (user_id (assign r)) (role (assign r)) then None
        else update_rows touches assign (done ++ [assign r]) rest
      else update_rows touches assign (done ++ [r]) rest
  end.

(** The table after the statement.  Only the "manage" policy covers writes;
    [has_role] is [STABLE] and sees the table as it was when the statement
    started.  A statement that fails (policy violation on insert, duplicate
    key on insert or update) leaves the table as it was. *)
Definition run_statement (c : Caller) (st : RoleStatement) (user_roles : list user_role)
    : list user_role :=
  match st with
  | InsertRole r =>
      if is_admin user_roles c && negb (has_role user_roles (user_id r) (role r))
      then user_roles ++ [r] else user_roles
  | DeleteRoles matching =>
      List.filter (fun r => negb (is_admin user_roles c && matching r)) user_roles
  | UpdateRoles matching assign =>
      match update_rows (fun r => is_admin user_roles c && matching r) assign
                        [] user_roles with
      | Some updated => updated
      | None => user_roles
      end
  end.

Definition run_statements (sts : list (Caller * RoleStatement))
    (user_roles : list user_role) : list user_role :=
  foldl (fun t cs => run_statement (fst cs) (snd cs) t) user_roles sts.

(** [SELECT] on the logs: "Allow admins to read all logs". *)
Definition select_logs (user_roles : list user_role) (c : Caller)
    (logs : list Logger.UsageRecord) : list Logger.UsageRecord :=
  List.filter (fun _ => is_admin user_roles c) logs.

End Roles.

(** ** Measures used in the further properties *)

Module Coverage.
Import Analyzer.

(** The timer's counter after [n] firings of a run. *)
Fixpoint counter (n : nat) : Q :=
  match n with
  | O => 0%Q
  | S n' => advance (counter n')
  end.

Definition below_99 (n : nat) : bool :=
  if Qlt_le_dec (counter n) 99 then true else false.

(** How many of the calls carry the event type [name]. *)
Definition count_calls (name : string) (calls : list UsageCall) : nat :=
  length (filter (fun c => call_eventType c = name) calls).

(** Analyses started and not yet turned into a logged outcome. *)
Definition unsettled (s : Session) : nat :=
  length (awaitingClient s) + length (inflight s) + length (completionTimeouts s).

(** Export is clicked and the awaited [generatePDF] settles. *)
Definition exported (o : PdfOutcome) (s : Session) : Session :=
  pdfSettled o (handleGeneratePDF s).

(** What reaches the [catch] block of [handleGeneratePDF], if anything: the
    rejection, or the [Error] the handler throws itself on a false result. *)
Definition pdfFailure (o : PdfOutcome) : option JsValue :=
  match o with
  | PdfResolved true => None
  | PdfResolved false => Some (JError "PDF generation failed")
  | PdfRejected e => Some e
  end.


End Coverage.

(** * Properties *)

(** ** The usage logger *)

Section LoggerFacts.
Import Logger Scenario.

Lemma usageRow_error_message sid et md em :
  error_message (usageRow sid et md em) =
    match em with
    | Some m => if nonempty m then JStr m else JNull
    | None => JNull
    end.
Proof. destruct em as [m|]; [destruct m|]; reflexivity. Qed.

Lemma getSupabaseClient_available env w :
  client_available env w = true ->
  exists w', getSupabaseClient env w = (Returned supabase, w')
             /\ sessionStorage w' = sessionStorage w
             /\ orthodontic_usage_logs w' = orthodontic_usage_logs w.
Proof.
  unfold client_available, getSupabaseClient, bind, gets, ret, modify, throw.
  destruct (cachedClient w) as [[]|] eqn:Hc; intros Hav.
  - exists w. auto.
  - apply andb_true_iff in Hav as [Hav Himp].
    apply andb_true_iff in Hav as [Hurl Hkey].
    rewrite Hurl, Hkey. cbn.
    destruct (import_client env); [discriminate|].
    eexists. split; [reflexivity|]. auto.
Qed.

Lemma getSessionId_returns env w :
  exists sid w', getSessionId env w = (Returned sid, w')
                 /\ orthodontic_usage_logs w' = orthodontic_usage_logs w.
Proof.
  unfold getSessionId, bind, gets, ret, modify.
  destruct (sessionStorage w !! "ortho_session_id") as [sid|].
  - destruct (nonempty sid); eauto.
  - eauto.
Qed.

End LoggerFacts.

(** C8.  Whatever the event type, metadata and error message, and however the
    write goes (the client cannot be constructed, the import or the insert
    rejects), [logUsageEvent] returns normally: its completion is never a
    throw.  A failure ends up on the console and leaves the log untouched. *)
Theorem logUsageEvent_never_throws
    (env : Logger.Env) (eventType : string) (metadata : JsValue)
    (errorMessage : option string) (w : Logger.Browser) :
  (Logger.logUsageEvent env eventType metadata errorMessage w).1 = Returned tt
  /\ (Logger.console (Logger.logUsageEvent env eventType metadata errorMessage w).2
        = Logger.console w
      \/ exists e,
           Logger.console (Logger.logUsageEvent env eventType metadata errorMessage w).2
             = Logger.console w ++ [e]
           /\ Logger.orthodontic_usage_logs
                (Logger.logUsageEvent env eventType metadata errorMessage w).2
              = Logger.orthodontic_usage_logs w).
Proof.
  unfold Logger.logUsageEvent, try_catch, bind.
  destruct (Logger.getSupabaseClient env w) as [[c|e] w1] eqn:Hclient.
  - destruct (getSessionId_returns env w1) as (sid & w2 & Hsid & Hlogs).
    rewrite Hsid. unfold Logger.insert.
    assert (Hcons : Logger.console w2 = Logger.console w).
    { clear Hlogs. revert Hclient Hsid.
      unfold Logger.getSupabaseClient, Logger.getSessionId, bind, gets, ret, modify, throw.
      repeat case_match; intros; simplify_eq; reflexivity. }
    assert (Hlogs' : Logger.orthodontic_usage_logs w1 = Logger.orthodontic_usage_logs w).
    { revert Hclient.
      unfold Logger.getSupabaseClient, bind, gets, ret, modify, throw.
      repeat case_match; intros; simplify_eq; reflexivity. }
    destruct (Logger.insert_outcome env) as [|e|e]; cbn.
    + split; [reflexivity|]. left. exact Hcons.
    + split; [reflexivity|]. left. exact Hcons.
    + split; [reflexivity|]. right. exists e. rewrite Hcons. split; [reflexivity|].
      congruence.
  - cbn. split; [reflexivity|]. right. exists e.
    revert Hclient.
    unfold Logger.getSupabaseClient, bind, gets, ret, modify, throw.
    repeat case_match; intros; simplify_eq; split; reflexivity.
Qed.

(** C10.  When the write goes through, the row appended by [logUsageEvent]
    carries [null] for a falsy [metadata] (an omitted one included) and for an
    omitted or empty error message, and the argument itself otherwise; its
    [error_message] is never the empty string. *)
Theorem logUsageEvent_row_nulls
    (env : Logger.Env) (eventType : string) (metadata : JsValue)
    (errorMessage : option string) (w : Logger.Browser) :
  Scenario.client_available env w = true ->
  Logger.insert_outcome env = Logger.InsertOk ->
  exists sid,
    Logger.orthodontic_usage_logs
        (Logger.logUsageEvent env eventType metadata errorMessage w).2
      = Logger.orthodontic_usage_logs w
          ++ [Logger.usageRow sid eventType metadata errorMessage]
    /\ Logger.metadata (Logger.usageRow sid eventType metadata errorMessage)
        = (if truthy metadata then metadata else JNull)
    /\ Logger.error_message (Logger.usageRow sid eventType metadata errorMessage)
        = match errorMessage with
          | Some m => if nonempty m then JStr m else JNull
          | None => JNull
          end
    /\ Logger.error_message (Logger.usageRow sid eventType metadata errorMessage)
        <> JStr "".
Proof.
  intros Hav Hins.
  destruct (getSupabaseClient_available env w Hav) as (w1 & Hclient & _ & Hlogs1).
  destruct (getSessionId_returns env w1) as (sid & w2 & Hsid & Hlogs2).
  exists sid.
  split; [|split; [|split]].
  - unfold Logger.logUsageEvent, try_catch, bind.
    rewrite Hclient, Hsid. unfold Logger.insert. rewrite Hins. cbn.
    congruence.
  - reflexivity.
  - apply usageRow_error_message.
  - rewrite usageRow_error_message.
    destruct errorMessage as [[|c m]|]; cbn; discriminate.
Qed.

Lemma logUsageEvent_row_nulls_witness :
  exists sid,
    Logger.orthodontic_usage_logs
        (Logger.logUsageEvent Scenario.configured "analysis_error" JUndefined (Some "")
           Scenario.fresh_tab).2
      = [Logger.usageRow sid "analysis_error" JUndefined (Some "")]
    /\ Logger.metadata (Logger.usageRow sid "analysis_error" JUndefined (Some "")) = JNull
    /\ Logger.error_message (Logger.usageRow sid "analysis_error" JUndefined (Some ""))
        = JNull.
Proof.
  destruct (logUsageEvent_row_nulls Scenario.configured "analysis_error" JUndefined
              (Some "") Scenario.fresh_tab eq_refl eq_refl)
    as (sid & Hrows & Hmeta & Herr & _).
  exists sid. split; [exact Hrows | split; [exact Hmeta | exact Herr]].
Defined.

(** ** The analyzer page: traces and invariants *)

Section PageFacts.
Import Analyzer Scenario.

Ltac handlers :=
  unfold handleImageUpload, readerLoaded, handleRemoveImage, handleAnalyze,
    clientSettled, invokeSettled, completionTimeout, handleGeneratePDF,
    pdfSettled, dialogOpenChange, handleClearAll, tick in *;
  unfold analyzeCatch, pdfCatch, dialogClose in *;
  unfold clearProgressInterval, startProgressInterval in *;
  unfold clearInterval, toast, fire_logUsageEvent in *.

Ltac fields :=
  cbn [selectedImages imageFiles treatmentPlan isAnalyzing progress isPdfGenerating
       showPdfDialog pdfSuccess progressIntervalRef intervals nextTimer
       completionTimeouts pendingReads awaitingClient inflight pendingPdf pdfCalls
       usageCalls toasts
       setSelectedImages setImageFiles setTreatmentPlan setIsAnalyzing setProgress
       setIsPdfGenerating setShowPdfDialog setPdfSuccess set_progressIntervalRef
       set_intervals set_nextTimer set_completionTimeouts set_pendingReads
       set_awaitingClient set_inflight set_pendingPdf set_pdfCalls set_usageCalls
       set_toasts] in *.

Ltac by_handler := handlers; fields; repeat case_match; fields.

Lemma reachable_run es s : reachable s -> reachable (run es s).
Proof.
  revert s. induction es as [|e es IH]; intros s Hs; [exact Hs|].
  cbn. apply IH. constructor. exact Hs.
Qed.

Lemma ui_reachable_run es s :
  ui_reachable s -> admissible es s = true -> ui_reachable (run es s).
Proof.
  revert s. induction es as [|e es IH]; intros s Hs Hadm; [exact Hs|].
  cbn in *. apply andb_true_iff in Hadm as [He Hes].
  apply IH; [constructor; assumption | exact Hes].
Qed.

Lemma filter_index_length {A} keep i (l : list A) :
  (length (filter_index keep i l) <= length l)%nat.
Proof.
  revert i. induction l as [|x l IH]; intros i; cbn; [lia|].
  destruct (keep i); cbn; specialize (IH (S i)); lia.
Qed.

Lemma without_first {A} (l : list A) : (length l <= 1)%nat -> without 0 l = [].
Proof. destruct l as [|x [|y l]]; cbn; intros; [reflexivity..|lia]. Qed.

(** The page holds at most one image. *)
Lemma images_bounded s :
  reachable s ->
  (length (selectedImages s) <= 1)%nat /\ (length (imageFiles s) <= 1)%nat.
Proof.
  induction 1 as [|e s _ [IHs IHf]]; [cbn; lia|].
  destruct e; cbn [step]; by_handler; cbn [length]; try (split; lia).
  split; unfold without; etransitivity; try apply filter_index_length; assumption.
Qed.

Lemma timers_owned_reachable s : reachable s -> timers_owned s.
Proof.
  unfold timers_owned.
  induction 1 as [|e s _ IH]; [cbn; intros id i; rewrite lookup_empty; discriminate|].
  destruct e; cbn [step]; by_handler; intros id' i' Hlk;
    repeat (rewrite lookup_delete in Hlk || rewrite lookup_insert in Hlk);
    repeat case_decide; simplify_eq;
    try (match goal with
         | H : intervals s !! _ = Some _ |- _ => pose proof (IH _ _ H)
         end);
    congruence.
Qed.

Lemma enabled_analyze s : enabled s EAnalyze = true -> isAnalyzing s = false.
Proof.
  unfold enabled, renderControls; cbn [analyzeButton]; intros H.
  destruct (isAnalyzing s); [|reflexivity].
  destruct (has_image s); cbn in H; discriminate.
Qed.

Ltac len_facts :=
  repeat match goal with
         | H : @eq (list _) _ _ |- _ => apply (f_equal length) in H; cbn [length] in H
         end;
  rewrite ?length_app in *; cbn [length] in *.

Lemma single_flight_reachable s : ui_reachable s -> single_flight s.
Proof.
  unfold single_flight.
  induction 1 as [|e s _ [IHn IHoff] Hen]; [cbn; split; [lia|auto]|].
  destruct e; cbn [step];
    try (apply enabled_analyze in Hen; destruct (IHoff Hen) as (Ha & Hi & Ht));
    by_handler; simplify_eq;
    (split;
     [ len_facts; lia
     | first
         [ assumption
         | intros Hoff; try discriminate;
           try (destruct (IHoff Hoff) as (? & ? & ?));
           repeat split; apply nil_length_inv; len_facts; lia ] ]).
Qed.

(** ** The report pane *)

Section Rendering.
Variable sanitizeHtml : string -> string.

(** C1.  In every reachable state that holds a report, what the page hands to
    [dangerouslySetInnerHTML] is [sanitizeHtml] of the stored report; and
    whenever the pane sets inner HTML at all, it is that sanitized string. *)
Theorem report_inserted_sanitized (s : Session) :
  reachable s ->
  treatmentPlan s <> "" ->
  renderReport sanitizeHtml s = InnerHTML (sanitizeHtml (treatmentPlan s))
  /\ (forall html, renderReport sanitizeHtml s = InnerHTML html ->
                   html = sanitizeHtml (treatmentPlan s)).
Proof.
  intros _ Hplan. unfold renderReport.
  destruct (treatmentPlan s) as [|c plan] eqn:E; [contradiction|].
  cbn. split; [reflexivity|]. intros html [= <-]. reflexivity.
Qed.

(** Without a report the pane shows the placeholder: nothing is inserted. *)
Lemma no_report_no_insertion (s : Session) :
  treatmentPlan s = "" -> renderReport sanitizeHtml s = Placeholder.
Proof. intros E. unfold renderReport. rewrite E. reflexivity. Qed.

End Rendering.

Lemma report_inserted_sanitized_witness :
  renderReport SpecSanitizer.sanitizeHtml
      (run (reported "<script>alert(1)</script><p>ok</p>") initial)
    = InnerHTML "<p>ok</p>".
Proof.
  pose proof (report_inserted_sanitized SpecSanitizer.sanitizeHtml
                (run (reported "<script>alert(1)</script><p>ok</p>") initial)
                (reachable_run _ _ reachable_initial)) as H.
  destruct H as [H _].
  - vm_compute. discriminate.
  - rewrite H. vm_compute. reflexivity.
Defined.

(** ** Re-entrant analysis *)

(** C2, as stated, fails: [handleAnalyze] has no guard of its own.  Called
    while [isAnalyzing] is on and a request is in flight, it puts a second
    request in flight. *)
Lemma handleAnalyze_not_guarded :
  isAnalyzing (run requested initial) = true
  /\ inflight (run requested initial) = [[pano_url]]
  /\ inflight (clientSettled None (handleAnalyze (run requested initial)))
     = [[pano_url]; [pano_url]].
Proof. vm_compute. auto. Qed.

(** C2, amended.  The guard is the rendered button: while [isAnalyzing] is on
    the page does not let Generate be clicked, and in every state reached
    through the page at most one analysis request is pending. *)
Theorem analyze_button_gates_single_flight (s : Session) :
  ui_reachable s ->
  (isAnalyzing s = true -> enabled s EAnalyze = false)
  /\ (pendingAnalyses s <= 1)%nat.
Proof.
  intros Hs. split.
  - intros Hon. destruct (enabled s EAnalyze) eqn:E; [|reflexivity].
    apply enabled_analyze in E. congruence.
  - destruct (single_flight_reachable s Hs) as [Hn _].
    unfold pendingAnalyses. lia.
Qed.

Lemma analyze_button_gates_single_flight_witness :
  (isAnalyzing (run requested initial) = true ->
   enabled (run requested initial) EAnalyze = false)
  /\ (pendingAnalyses (run requested initial) <= 1)%nat.
Proof.
  apply (analyze_button_gates_single_flight (run requested initial)).
  apply ui_reachable_run; [constructor | vm_compute; reflexivity].
Defined.

(** ** Export without a report *)

(** C7.  With no report stored, [handleGeneratePDF] only shows its toast: the
    PDF library is not called, no continuation is left pending, nothing is
    logged, and no other cell changes. *)
Theorem export_rejected_without_report (s : Session) :
  treatmentPlan s = "" ->
  handleGeneratePDF s
    = toast {| title := "No treatment plan";
               description := "Please generate a treatment plan first";
               destructive := true |} s
  /\ pdfCalls (handleGeneratePDF s) = pdfCalls s
  /\ pendingPdf (handleGeneratePDF s) = pendingPdf s
  /\ usageCalls (handleGeneratePDF s) = usageCalls s.
Proof.
  intros E. unfold handleGeneratePDF. rewrite E. cbn [nonempty negb].
  unfold toast. fields. auto.
Qed.

Lemma export_rejected_without_report_witness :
  pdfCalls (handleGeneratePDF (run uploaded initial)) = []
  /\ toasts (handleGeneratePDF (run uploaded initial))
     = [{| title := "No treatment plan";
           description := "Please generate a treatment plan first";
           destructive := true |}].
Proof.
  destruct (export_rejected_without_report (run uploaded initial) eq_refl)
    as (Heq & Hcalls & _ & _).
  split; [exact Hcalls | rewrite Heq; reflexivity].
Defined.

(** ** Removing the image *)

(** C9.  In a reachable state, removing the displayed image (index 0) empties
    the two image lists and changes nothing else; in particular the report and
    the progress value stay.  A session can therefore hold a report and no
    image. *)
Theorem handleRemoveImage_only_clears_images (s : Session) :
  reachable s ->
  handleRemoveImage 0 s = setImageFiles [] (setSelectedImages [] s)
  /\ treatmentPlan (handleRemoveImage 0 s) = treatmentPlan s
  /\ progress (handleRemoveImage 0 s) = progress s
  /\ (exists s', reachable s'
                 /\ treatmentPlan (handleRemoveImage 0 s') = "<p>ok</p>"
                 /\ selectedImages (handleRemoveImage 0 s') = []
                 /\ imageFiles (handleRemoveImage 0 s') = []).
Proof.
  intros Hs. destruct (images_bounded s Hs) as [Hsel Hfiles].
  unfold handleRemoveImage. fields.
  rewrite (without_first _ Hsel), (without_first _ Hfiles).
  repeat split.
  exists (run (reported "<p>ok</p>") initial).
  split; [apply reachable_run; constructor|].
  vm_compute. auto.
Qed.

Lemma handleRemoveImage_only_clears_images_witness :
  selectedImages (handleRemoveImage 0 (run (reported "<p>ok</p>") initial)) = []
  /\ treatmentPlan (handleRemoveImage 0 (run (reported "<p>ok</p>") initial)) = "<p>ok</p>"
  /\ progress (handleRemoveImage 0 (run (reported "<p>ok</p>") initial)) = 100%Z.
Proof.
  destruct (handleRemoveImage_only_clears_images (run (reported "<p>ok</p>") initial)
              (reachable_run _ _ reachable_initial))
    as (Heq & Hplan & Hprog & _).
  rewrite Heq at 1. rewrite Hplan, Hprog. vm_compute. auto.
Defined.

(** ** The progress timer *)


Lemma advance_ge (i : Q) : (i <= advance i)%Q.
Proof.
  unfold advance.
  destruct (Qlt_le_dec i 60), (Qlt_le_dec i 90), (Qlt_le_dec i 99); lra.
Qed.


Lemma emitted_le_99 (i : Q) : (emitted i <= 99)%Z.
Proof. unfold emitted. apply Z.le_min_r. Qed.

(** What a firing does to the progress value. *)
Lemma tick_live id i s :
  intervals s !! id = Some i -> progress (tick id s) = emitted (advance i).
Proof.
  intros Hlive. unfold tick. rewrite Hlive.
  destruct (Qlt_le_dec (advance i) 99); unfold clearProgressInterval, clearInterval;
    fields; [reflexivity|].
  destruct (progressIntervalRef s); reflexivity.
Qed.

Lemma tick_dead id s : intervals s !! id = None -> tick id s = s.
Proof. intros Hdead. unfold tick. rewrite Hdead. reflexivity. Qed.




(** ** Leaving the analyzing state *)

(** C3 fails on the success path, which never calls [clearInterval].  After
    upload, Generate, one firing of the timer, a successful response and the
    500 ms callback, the page has left the analyzing state with the report
    shown and progress 100, the interval is still live, and its next firing
    overwrites the progress value with 4. *)
Theorem success_leaves_timer_running :
  isAnalyzing (run (reported "<p>ok</p>") initial) = false
  /\ treatmentPlan (run (reported "<p>ok</p>") initial) = "<p>ok</p>"
  /\ progress (run (reported "<p>ok</p>") initial) = 100%Z
  /\ progressIntervalRef (run (reported "<p>ok</p>") initial) = Some 1%positive
  /\ intervals (run (reported "<p>ok</p>") initial) !! 1%positive = Some 2%Q
  /\ progress (step (ETick 1) (run (reported "<p>ok</p>") initial)) = 4%Z.
Proof. vm_compute. repeat split; reflexivity. Qed.

(** The failure path and Clear All do stop the timer the cell points to. *)
Lemma analyzeCatch_stops_timer error s :
  timers_owned s -> intervals (analyzeCatch error s) = ∅.
Proof.
  intros Hown.
  apply map_eq. intros id. rewrite lookup_empty.
  unfold analyzeCatch, clearProgressInterval, clearInterval, toast, fire_logUsageEvent.
  fields. destruct (progressIntervalRef s) as [r|] eqn:Href; fields.
  - rewrite lookup_delete. case_decide; [reflexivity|].
    destruct (intervals s !! id) as [i|] eqn:Hlive; [|reflexivity].
    apply Hown in Hlive. congruence.
  - destruct (intervals s !! id) as [i|] eqn:Hlive; [|reflexivity].
    apply Hown in Hlive. congruence.
Qed.

Lemma handleClearAll_stops_timer s :
  reachable s -> intervals (handleClearAll s) = ∅ /\ isAnalyzing (handleClearAll s) = isAnalyzing s.
Proof.
  intros Hs. pose proof (timers_owned_reachable s Hs) as Hown.
  split.
  - apply map_eq. intros id. rewrite lookup_empty.
    unfold handleClearAll, clearProgressInterval, clearInterval, toast.
    fields. destruct (progressIntervalRef s) as [r|] eqn:Href; fields.
    + rewrite lookup_delete. case_decide; [reflexivity|].
      destruct (intervals s !! id) as [i|] eqn:Hlive; [|reflexivity].
      apply Hown in Hlive. congruence.
    + destruct (intervals s !! id) as [i|] eqn:Hlive; [|reflexivity].
      apply Hown in Hlive. congruence.
  - unfold handleClearAll, clearProgressInterval, clearInterval, toast.
    fields. destruct (progressIntervalRef s); reflexivity.
Qed.

(** ** A failed analysis *)

Lemma analyzeCatch_effects error s :
  isAnalyzing (analyzeCatch error s) = false
  /\ imageFiles (analyzeCatch error s) = imageFiles s
  /\ selectedImages (analyzeCatch error s) = selectedImages s
  /\ progress (analyzeCatch error s) = 0%Z
  /\ usageCalls (analyzeCatch error s)
     = usageCalls s
         ++ [{| call_eventType := "analysis_error";
                call_metadata := JNull;
                call_errorMessage := Some (errorMessageOf error) |}].
Proof.
  unfold analyzeCatch, clearProgressInterval, clearInterval, toast, fire_logUsageEvent.
  destruct (progressIntervalRef s); fields; auto.
Qed.

(** C5, as stated, fails.  A response with neither data nor error is not
    treated as a failure: progress goes to 100, the 500 ms callback throws
    while reading [data.analysis], and the page stays in the analyzing state
    with nothing pending and no [analysis_error] logged.  And a failure that
    is not an [Error] instance is logged as 'Unknown error', whatever message
    it carries. *)
Lemma null_response_not_handled :
  isAnalyzing (run answered_null initial) = true
  /\ progress (run answered_null initial) = 100%Z
  /\ map call_eventType (usageCalls (run answered_null initial))
     = ["upload"; "analysis_start"]
  /\ pendingAnalyses (run answered_null initial) = 0%nat
  /\ completionTimeouts (run answered_null initial) = []
  /\ last (usageCalls
             (run (requested
                     ++ [EInvokeSettled
                           (Response NoData (JObj [("message", JStr "quota exceeded")]))])
                initial))
     = Some {| call_eventType := "analysis_error";
               call_metadata := JNull;
               call_errorMessage := Some "Unknown error" |}.
Proof. vm_compute. repeat split; reflexivity. Qed.

(** C5, amended.  When the awaited client or invocation throws, or the response
    carries an error, the page leaves the analyzing state with its image
    lists as they were, progress 0 and no live interval, and makes exactly
    one more [logUsageEvent] call: [analysis_error] with the message of the
    error when it is an [Error] instance and 'Unknown error' otherwise.  For
    an [Error] with a non-empty message the row written carries that
    message. *)
Theorem analysis_failure_recovers (s : Session) (ev : Event) (err : JsValue) :
  reachable s ->
  analysisFailure ev = Some err ->
  awaited ev s = true ->
  isAnalyzing (step ev s) = false
  /\ imageFiles (step ev s) = imageFiles s
  /\ selectedImages (step ev s) = selectedImages s
  /\ progress (step ev s) = 0%Z
  /\ intervals (step ev s) = ∅
  /\ usageCalls (step ev s)
     = usageCalls s
         ++ [{| call_eventType := "analysis_error";
                call_metadata := JNull;
                call_errorMessage := Some (errorMessageOf err) |}]
  /\ (forall sid m,
        err = JError m ->
        Logger.error_message
          (Logger.usageRow sid "analysis_error" JNull (Some (errorMessageOf err)))
        = if nonempty m then JStr m else JNull).
Proof.
  intros Hs Hfail Hwait.
  pose proof (timers_owned_reachable s Hs) as Hown.
  assert (Hstep : exists s0,
             step ev s = analyzeCatch err s0
             /\ timers_owned s0
             /\ imageFiles s0 = imageFiles s
             /\ selectedImages s0 = selectedImages s
             /\ usageCalls s0 = usageCalls s).
  { destruct ev as [| | | | |failure|o| | | | | |]; cbn in Hfail, Hwait; try discriminate.
    - destruct failure as [e|]; [|discriminate]. injection Hfail as ->.
      cbn [step]. unfold clientSettled.
      destruct (awaitingClient s) as [|body rest]; [discriminate|].
      eexists. split; [reflexivity|]. repeat split. exact Hown.
    - cbn [step]. unfold invokeSettled.
      destruct (inflight s) as [|body rest]; [discriminate|].
      destruct o as [e|data e].
      + injection Hfail as ->. eexists. split; [reflexivity|]. repeat split. exact Hown.
      + destruct (truthy e); [|discriminate]. injection Hfail as ->.
        eexists. split; [reflexivity|]. repeat split. exact Hown. }
  destruct Hstep as (s0 & -> & Hown0 & Hfiles & Himages & Hcalls).
  destruct (analyzeCatch_effects err s0) as (Hoff & Hf & Hi & Hp & Hc).
  rewrite Hoff, Hf, Hi, Hp, Hc, Hfiles, Himages, Hcalls.
  rewrite (analyzeCatch_stops_timer err s0 Hown0).
  repeat split.
  intros sid m ->. rewrite usageRow_error_message. reflexivity.
Qed.

Lemma analysis_failure_recovers_witness :
  isAnalyzing
    (step (EInvokeSettled (Response NoData (JError "Edge Function returned 500")))
       (run requested initial)) = false
  /\ progress
       (step (EInvokeSettled (Response NoData (JError "Edge Function returned 500")))
          (run requested initial)) = 0%Z
  /\ imageFiles
       (step (EInvokeSettled (Response NoData (JError "Edge Function returned 500")))
          (run requested initial)) = [pano]
  /\ last (usageCalls
             (step (EInvokeSettled (Response NoData (JError "Edge Function returned 500")))
                (run requested initial)))
     = Some {| call_eventType := "analysis_error";
               call_metadata := JNull;
               call_errorMessage := Some "Edge Function returned 500" |}.
Proof.
  destruct (analysis_failure_recovers (run requested initial)
              (EInvokeSettled (Response NoData (JError "Edge Function returned 500")))
              (JError "Edge Function returned 500")
              (reachable_run _ _ reachable_initial) eq_refl eq_refl)
    as (Hoff & Hfiles & _ & Hprog & _ & Hcalls & _).
  rewrite Hoff, Hprog, Hfiles, Hcalls. vm_compute. auto.
Defined.

(** ** A successful analysis *)

Lemma tick_frame id s :
  treatmentPlan (tick id s) = treatmentPlan s
  /\ isAnalyzing (tick id s) = isAnalyzing s
  /\ completionTimeouts (tick id s) = completionTimeouts s
  /\ usageCalls (tick id s) = usageCalls s.
Proof. by_handler; auto. Qed.

Lemma firings_frame firings s :
  treatmentPlan (run (map ETick firings) s) = treatmentPlan s
  /\ isAnalyzing (run (map ETick firings) s) = isAnalyzing s
  /\ completionTimeouts (run (map ETick firings) s) = completionTimeouts s
  /\ usageCalls (run (map ETick firings) s) = usageCalls s.
Proof.
  revert s. induction firings as [|id firings IH]; intros s; [cbn; auto|].
  cbn [map]. change (run (ETick id :: map ETick firings) s)
    with (run (map ETick firings) (tick id s)).
  destruct (IH (tick id s)) as (-> & -> & -> & ->). apply tick_frame.
Qed.

(** C6, as stated, fails: the page stores the report as it arrived.  With a
    sanitizer that removes script elements, the stored report still holds the
    script; only what is rendered is sanitized. *)
Lemma stored_report_not_sanitized :
  treatmentPlan (run (reported "<script>alert(1)</script><p>ok</p>") initial)
    = "<script>alert(1)</script><p>ok</p>"
  /\ SpecSanitizer.sanitizeHtml "<script>alert(1)</script><p>ok</p>" = "<p>ok</p>"
  /\ treatmentPlan (run (reported "<script>alert(1)</script><p>ok</p>") initial)
     <> SpecSanitizer.sanitizeHtml "<script>alert(1)</script><p>ok</p>".
Proof. vm_compute. repeat split; [reflexivity..|discriminate]. Qed.

Section Success.
Variable sanitizeHtml : string -> string.

(** C6, amended.  When the invocation settles with [{ analysis }] and no
    error, progress is set to 100 at once.  When the 500 ms callback then
    runs (the timer may fire in between), the stored report is [analysis]
    itself, unsanitized, [isAnalyzing] is off, and one [analysis_success]
    call has been made; the report pane inserts [sanitizeHtml analysis]. *)
Theorem success_stores_report_as_received
    (s : Session) (analysis : string) (error : JsValue) (firings : list positive) :
  (0 < length (inflight s))%nat ->
  completionTimeouts s = [] ->
  truthy error = false ->
  progress (invokeSettled (Response (Analysis analysis) error) s) = 100%Z
  /\ treatmentPlan (completed analysis error firings s) = analysis
  /\ isAnalyzing (completed analysis error firings s) = false
  /\ usageCalls (completed analysis error firings s)
     = usageCalls s
         ++ [{| call_eventType := "analysis_success";
                call_metadata := JUndefined;
                call_errorMessage := None |}]
  /\ renderReport sanitizeHtml (completed analysis error firings s)
     = (if nonempty analysis then InnerHTML (sanitizeHtml analysis) else Placeholder).
Proof.
  intros Hflight Hnone Herr.
  unfold completed.
  set (s1 := invokeSettled (Response (Analysis analysis) error) s).
  assert (H1 : progress s1 = 100%Z /\ completionTimeouts s1 = [Analysis analysis]
               /\ usageCalls s1 = usageCalls s).
  { subst s1. unfold invokeSettled.
    destruct (inflight s) as [|body rest]; [cbn in Hflight; lia|].
    rewrite Herr. fields. rewrite Hnone. auto. }
  destruct H1 as (Hp & Hq & Hc). split; [exact Hp|].
  destruct (firings_frame firings s1) as (_ & _ & Hq' & Hc').
  unfold completionTimeout, renderReport. rewrite Hq', Hq.
  unfold toast, fire_logUsageEvent. fields. rewrite Hc', Hc.
  repeat split. destruct analysis; reflexivity.
Qed.

End Success.

Lemma success_stores_report_as_received_witness :
  treatmentPlan
    (completed "<script>alert(1)</script><p>ok</p>" JNull [1; 1]%positive
       (run requested initial))
    = "<script>alert(1)</script><p>ok</p>"
  /\ renderReport SpecSanitizer.sanitizeHtml
       (completed "<script>alert(1)</script><p>ok</p>" JNull [1; 1]%positive
          (run requested initial))
     = InnerHTML "<p>ok</p>".
Proof.
  destruct (success_stores_report_as_received SpecSanitizer.sanitizeHtml
              (run requested initial) "<script>alert(1)</script><p>ok</p>" JNull
              [1; 1]%positive)
    as (_ & Hplan & _ & _ & Hpane).
  - vm_compute. lia.
  - vm_compute. reflexivity.
  - reflexivity.
  - split; [exact Hplan|]. rewrite Hpane. vm_compute. reflexivity.
Defined.

End PageFacts.

(** * Further properties *)

(** ** The lazy client and the session identifier *)

Section ClientFacts.
Import Logger Scenario.

Lemma getSupabaseClient_returned (env env' : Env) (w w1 : Browser) (c : SupabaseClient) :
  getSupabaseClient env w = (Returned c, w1) ->
  getSupabaseClient env' w1 = (Returned c, w1)
  /\ cachedClient w1 = Some c
  /\ sessionStorage w1 = sessionStorage w
  /\ orthodontic_usage_logs w1 = orthodontic_usage_logs w
  /\ console w1 = console w.
Proof.
  unfold getSupabaseClient, bind, gets, ret, modify, throw.
  destruct (cachedClient w) as [c0|] eqn:Hc.
  - intros [= <- <-]. rewrite Hc. auto.
  - destruct (negb (truthy (VITE_SUPABASE_URL env))
              || negb (truthy (VITE_SUPABASE_PUBLISHABLE_KEY env))); [discriminate|].
    destruct (import_client env); [discriminate|].
    intros [= <- <-]. cbn. auto.
Qed.

(** X1.  Once [getSupabaseClient] has returned, every later call returns the
    same client and leaves the browser as it is, whatever the build-time
    variables and the import would then do. *)
Theorem getSupabaseClient_caches (env env' : Env) (w w1 : Browser) (c : SupabaseClient) :
  getSupabaseClient env w = (Returned c, w1) ->
  getSupabaseClient env' w1 = (Returned c, w1)
  /\ cachedClient w1 = Some c
  /\ sessionStorage w1 = sessionStorage w
  /\ orthodontic_usage_logs w1 = orthodontic_usage_logs w
  /\ console w1 = console w.
Proof. apply getSupabaseClient_returned. Qed.

Lemma getSupabaseClient_caches_witness :
  getSupabaseClient
    {| VITE_SUPABASE_URL := JUndefined; VITE_SUPABASE_PUBLISHABLE_KEY := JUndefined;
       import_client := Some (JError "Failed to fetch dynamically imported module");
       fresh_session_id := ""; insert_outcome := InsertOk |}
    (set_cachedClient (Some supabase) fresh_tab)
  = (Returned supabase, set_cachedClient (Some supabase) fresh_tab).
Proof.
  refine (proj1 (getSupabaseClient_caches configured _ fresh_tab _ supabase _)).
  reflexivity.
Defined.

(** X2.  A call that throws changes nothing and caches nothing.  With a
    missing URL or key and no cached client the thrown value is the
    configuration [Error]; and a later call made when the client is available
    succeeds. *)
Theorem getSupabaseClient_failure_not_cached (env env' : Env) (w w1 : Browser) (e : JsValue) :
  getSupabaseClient env w = (Thrown e, w1) ->
  w1 = w
  /\ cachedClient w = None
  /\ (truthy (VITE_SUPABASE_URL env) && truthy (VITE_SUPABASE_PUBLISHABLE_KEY env) = false ->
      e = JError "Backend is not fully configured yet. Please try again in a moment.")
  /\ (client_available env' w = true ->
      (getSupabaseClient env' w1).1 = Returned supabase).
Proof.
  unfold getSupabaseClient, bind, gets, ret, modify, throw.
  destruct (cachedClient w) as [c0|] eqn:Hc; [discriminate|].
  destruct (truthy (VITE_SUPABASE_URL env)) eqn:Hurl,
           (truthy (VITE_SUPABASE_PUBLISHABLE_KEY env)) eqn:Hkey; cbn.
  - destruct (import_client env) as [e0|]; [|discriminate].
    intros [= <- <-]. repeat split; [discriminate|].
    intros Hav. destruct (getSupabaseClient_available env' w Hav) as (w2 & Hok & _).
    unfold getSupabaseClient, bind, gets, ret, modify, throw in Hok.
    rewrite Hok. reflexivity.
  - intros [= <- <-]. repeat split.
    intros Hav. destruct (getSupabaseClient_available env' w Hav) as (w2 & Hok & _).
    unfold getSupabaseClient, bind, gets, ret, modify, throw in Hok.
    rewrite Hok. reflexivity.
  - intros [= <- <-]. repeat split.
    intros Hav. destruct (getSupabaseClient_available env' w Hav) as (w2 & Hok & _).
    unfold getSupabaseClient, bind, gets, ret, modify, throw in Hok.
    rewrite Hok. reflexivity.
  - intros [= <- <-]. repeat split.
    intros Hav. destruct (getSupabaseClient_available env' w Hav) as (w2 & Hok & _).
    unfold getSupabaseClient, bind, gets, ret, modify, throw in Hok.
    rewrite Hok. reflexivity.
Qed.

Lemma getSupabaseClient_failure_not_cached_witness :
  (getSupabaseClient configured fresh_tab).1 = Returned supabase.
Proof.
  refine (proj2 (proj2 (proj2
    (getSupabaseClient_failure_not_cached
       {| VITE_SUPABASE_URL := JStr ""; VITE_SUPABASE_PUBLISHABLE_KEY := JStr "publishable-key";
          import_client := None; fresh_session_id := ""; insert_outcome := InsertOk |}
       configured fresh_tab fresh_tab
       (JError "Backend is not fully configured yet. Please try again in a moment.")
       _))) _); reflexivity.
Defined.

Lemma getSessionId_settles (env env' : Env) (w : Browser) :
  nonempty (fresh_session_id env) = true ->
  exists sid w1,
    getSessionId env w = (Returned sid, w1)
    /\ nonempty sid = true
    /\ sessionStorage w1 !! "ortho_session_id" = Some sid
    /\ getSessionId env' w1 = (Returned sid, w1).
Proof.
  intros Hfresh. unfold getSessionId, bind, gets, ret, modify.
  destruct (sessionStorage w !! "ortho_session_id") as [sid|] eqn:Hstored.
  - destruct (nonempty sid) eqn:Hsid.
    + exists sid, w. rewrite Hstored, Hsid. auto.
    + eexists _, _. split; [reflexivity|]. cbn.
      rewrite lookup_insert_eq, Hfresh. auto.
  - eexists _, _. split; [reflexivity|]. cbn.
    rewrite lookup_insert_eq, Hfresh. auto.
Qed.

(** X3.  [getSessionId] settles on one identifier per tab: the identifier it
    returns is not empty, is the one kept in [sessionStorage], and is what
    every later call returns, without touching the browser again. *)
Theorem getSessionId_stable (env env' : Env) (w : Browser) :
  nonempty (fresh_session_id env) = true ->
  exists sid w1,
    getSessionId env w = (Returned sid, w1)
    /\ nonempty sid = true
    /\ sessionStorage w1 !! "ortho_session_id" = Some sid
    /\ getSessionId env' w1 = (Returned sid, w1).
Proof. apply getSessionId_settles. Qed.

Lemma getSessionId_stable_witness :
  exists sid w1,
    getSessionId configured fresh_tab = (Returned sid, w1)
    /\ nonempty sid = true
    /\ sessionStorage w1 !! "ortho_session_id" = Some sid
    /\ getSessionId
         {| VITE_SUPABASE_URL := JNull; VITE_SUPABASE_PUBLISHABLE_KEY := JNull;
            import_client := None; fresh_session_id := "session_1700000099999_zzzzzzzzz";
            insert_outcome := InsertOk |} w1
       = (Returned sid, w1).
Proof. apply (getSessionId_stable configured _ fresh_tab). reflexivity. Defined.

Lemma getSessionId_stored env w sid :
  sessionStorage w !! "ortho_session_id" = Some sid ->
  nonempty sid = true ->
  getSessionId env w = (Returned sid, w).
Proof.
  intros Hstored Hsid. unfold getSessionId, bind, gets, ret.
  rewrite Hstored, Hsid. reflexivity.
Qed.

(** X4.  Two events logged one after the other from the same tab are
    appended in order and carry the same session identifier; the second call
    finds the client cached, so it no longer depends on the configuration. *)
Theorem logUsageEvent_twice_same_session
    (env env' : Env) (w : Browser)
    (eventType eventType' : string) (metadata metadata' : JsValue)
    (errorMessage errorMessage' : option string) :
  client_available env w = true ->
  insert_outcome env = InsertOk ->
  insert_outcome env' = InsertOk ->
  nonempty (fresh_session_id env) = true ->
  exists sid,
    orthodontic_usage_logs
      (logUsageEvent env' eventType' metadata' errorMessage'
         (logUsageEvent env eventType metadata errorMessage w).2).2
    = orthodontic_usage_logs w
        ++ [usageRow sid eventType metadata errorMessage;
            usageRow sid eventType' metadata' errorMessage'].
Proof.
  intros Hav Hins Hins' Hfresh.
  destruct (getSupabaseClient_available env w Hav) as (w1 & Hclient & _ & Hlogs1).
  destruct (getSessionId_settles env env' w1 Hfresh)
    as (sid & w2 & Hsid & Hne & Hstored & _).
  assert (Hlogs2 : orthodontic_usage_logs w2 = orthodontic_usage_logs w1).
  { destruct (getSessionId_returns env w1) as (sid0 & w0 & Hret & Hl). congruence. }
  assert (Hcached : cachedClient (push_row (usageRow sid eventType metadata errorMessage) w2)
                    = Some supabase).
  { destruct (getSupabaseClient_returned env env w w1 supabase Hclient) as (_ & Hc & _).
    cbn. revert Hsid Hc. unfold getSessionId, bind, gets, ret, modify.
    repeat case_match; intros; simplify_eq; cbn; assumption. }
  exists sid.
  unfold logUsageEvent at 2. unfold try_catch, bind at 1 2.
  rewrite Hclient, Hsid. unfold insert at 1. rewrite Hins. cbn [modify snd].
  set (w3 := push_row (usageRow sid eventType metadata errorMessage) w2) in *.
  unfold logUsageEvent, try_catch, bind.
  assert (Hclient' : getSupabaseClient env' w3 = (Returned supabase, w3)).
  { unfold getSupabaseClient, bind, gets, ret. rewrite Hcached. reflexivity. }
  assert (Hsid3 : getSessionId env' w3 = (Returned sid, w3)).
  { apply getSessionId_stored; [exact Hstored | exact Hne]. }
  rewrite Hclient', Hsid3. unfold insert. rewrite Hins'. cbn.
  rewrite Hlogs2, Hlogs1, <- app_assoc. reflexivity.
Qed.

Lemma logUsageEvent_twice_same_session_witness :
  exists sid,
    orthodontic_usage_logs
      (logUsageEvent configured "analysis_success" JUndefined None
         (logUsageEvent configured "analysis_start" JUndefined None fresh_tab).2).2
    = [usageRow sid "analysis_start" JUndefined None;
       usageRow sid "analysis_success" JUndefined None].
Proof.
  apply (logUsageEvent_twice_same_session configured configured fresh_tab
           "analysis_start" "analysis_success" JUndefined JUndefined None None);
    reflexivity.
Defined.

(** X5.  When the client is not available, [logUsageEvent] gives up before it
    reaches the session identifier: no row is written, [sessionStorage] and
    the client cache stay as they are, and exactly one error goes to the
    console. *)
Theorem logUsageEvent_unavailable
    (env : Env) (w : Browser) (eventType : string) (metadata : JsValue)
    (errorMessage : option string) :
  client_available env w = false ->
  orthodontic_usage_logs (logUsageEvent env eventType metadata errorMessage w).2
    = orthodontic_usage_logs w
  /\ sessionStorage (logUsageEvent env eventType metadata errorMessage w).2
     = sessionStorage w
  /\ cachedClient (logUsageEvent env eventType metadata errorMessage w).2 = None
  /\ exists e,
       console (logUsageEvent env eventType metadata errorMessage w).2 = console w ++ [e].
Proof.
  unfold client_available, logUsageEvent, try_catch, bind at 1.
  unfold getSupabaseClient, bind, gets, ret, modify, throw.
  destruct (cachedClient w) as [c|] eqn:Hc; [discriminate|].
  destruct (truthy (VITE_SUPABASE_URL env)), (truthy (VITE_SUPABASE_PUBLISHABLE_KEY env));
    cbn; [destruct (import_client env) as [e|]; [|discriminate] | ..];
    intros _; cbn; rewrite ?Hc; repeat split; eauto.
Qed.

Lemma logUsageEvent_unavailable_witness :
  sessionStorage
    (logUsageEvent
       {| VITE_SUPABASE_URL := JUndefined; VITE_SUPABASE_PUBLISHABLE_KEY := JUndefined;
          import_client := None; fresh_session_id := "session_1700000000000_k3j9x2m1q";
          insert_outcome := InsertOk |}
       "upload" JUndefined None fresh_tab).2
  = ∅.
Proof.
  refine (proj1 (proj2 (logUsageEvent_unavailable _ fresh_tab "upload" JUndefined None _))).
  reflexivity.
Defined.

End ClientFacts.

(** ** The analyzer page: further invariants *)

Section MorePageFacts.
Import Analyzer Scenario Coverage.

Ltac handlers :=
  unfold handleImageUpload, readerLoaded, handleRemoveImage, handleAnalyze,
    clientSettled, invokeSettled, completionTimeout, handleGeneratePDF,
    pdfSettled, dialogOpenChange, handleClearAll, tick in *;
  unfold analyzeCatch, pdfCatch, dialogClose in *;
  unfold clearProgressInterval, startProgressInterval in *;
  unfold clearInterval, toast, fire_logUsageEvent in *.

Ltac fields :=
  cbn [selectedImages imageFiles treatmentPlan isAnalyzing progress isPdfGenerating
       showPdfDialog pdfSuccess progressIntervalRef intervals nextTimer
       completionTimeouts pendingReads awaitingClient inflight pendingPdf pdfCalls
       usageCalls toasts
       setSelectedImages setImageFiles setTreatmentPlan setIsAnalyzing setProgress
       setIsPdfGenerating setShowPdfDialog setPdfSuccess set_progressIntervalRef
       set_intervals set_nextTimer set_completionTimeouts set_pendingReads
       set_awaitingClient set_inflight set_pendingPdf set_pdfCalls set_usageCalls
       set_toasts] in *.

Ltac by_handler := handlers; fields; repeat case_match; fields.

Ltac len_facts :=
  repeat match goal with
         | H : @eq (list _) _ _ |- _ => apply (f_equal length) in H; cbn [length] in H
         end;
  rewrite ?length_app in *; cbn [length] in *.

(** X6.  However the handlers are called, at most one progress timer is live,
    it is the one the [useRef] cell holds, and its handle was issued before
    [nextTimer]. *)
Theorem single_progress_timer (s : Session) :
  reachable s ->
  (forall id i, intervals s !! id = Some i ->
                progressIntervalRef s = Some id /\ (id < nextTimer s)%positive)
  /\ (forall id1 id2 i1 i2,
        intervals s !! id1 = Some i1 -> intervals s !! id2 = Some i2 -> id1 = id2).
Proof.
  intros Hs.
  assert (Hfresh : forall id i, intervals s !! id = Some i -> (id < nextTimer s)%positive).
  { induction Hs as [|e s _ IH]; [intros id i; cbn; rewrite lookup_empty; discriminate|].
    destruct e; cbn [step]; by_handler; intros id' i' Hlk;
      repeat (rewrite lookup_delete in Hlk || rewrite lookup_insert in Hlk);
      repeat case_decide; simplify_eq;
      try (match goal with
           | H : intervals s !! _ = Some _ |- _ => pose proof (IH _ _ H)
           end);
      lia. }
  pose proof (timers_owned_reachable s Hs) as Hown.
  split.
  - intros id i Hlive. split; [exact (Hown _ _ Hlive) | exact (Hfresh _ _ Hlive)].
  - intros id1 id2 i1 i2 H1 H2. apply Hown in H1, H2. congruence.
Qed.

Lemma single_progress_timer_witness :
  progressIntervalRef (run (reported "<p>ok</p>") initial) = Some 1%positive
  /\ (1 < nextTimer (run (reported "<p>ok</p>") initial))%positive.
Proof.
  refine (proj1 (single_progress_timer (run (reported "<p>ok</p>") initial)
                   (reachable_run _ _ reachable_initial)) 1%positive 2%Q _).
  vm_compute. reflexivity.
Defined.

Lemma emitted_nonneg (i : Q) : (0 <= i)%Q -> (0 <= emitted i)%Z.
Proof.
  intros Hi. unfold emitted, Math_round.
  apply Z.min_glb; [|lia].
  change 0%Z with (Qfloor 0). apply Qfloor_resp_le. lra.
Qed.

(** X7.  In every reachable state the progress value lies between 0 and 100,
    and the counter of a live timer is never negative. *)
Theorem progress_in_range (s : Session) :
  reachable s ->
  (0 <= progress s <= 100)%Z
  /\ (forall id i, intervals s !! id = Some i -> (0 <= i)%Q).
Proof.
  induction 1 as [|e s _ [IHp IHc]].
  - cbn. split; [lia|]. intros id i. rewrite lookup_empty. discriminate.
  - assert (Hemit : forall i, (0 <= i)%Q -> (0 <= emitted (advance i) <= 100)%Z).
    { intros i Hi. pose proof (advance_ge i) as Hge.
      pose proof (emitted_le_99 (advance i)) as Hle.
      split; [|lia]. apply emitted_nonneg. lra. }
    destruct e; cbn [step]; by_handler;
      (split;
       [ first [ exact IHp | lia
               | match goal with
                 | H : intervals s !! _ = Some ?i |- context [emitted (advance ?i)] =>
                     apply Hemit, (IHc _ _ H)
                 end ]
       | intros id' i' Hlk;
         repeat (rewrite lookup_delete in Hlk || rewrite lookup_insert in Hlk);
         repeat case_decide; simplify_eq;
         first [ exact (IHc _ _ Hlk)
               | lra
               | match goal with
                 | H : intervals s !! _ = Some ?i |- (0 <= advance ?i)%Q =>
                     pose proof (advance_ge i); pose proof (IHc _ _ H); lra
                 end ] ]).
Qed.

Lemma progress_in_range_witness :
  (0 <= progress (run (reported "<p>ok</p>") initial) <= 100)%Z.
Proof.
  exact (proj1 (progress_in_range (run (reported "<p>ok</p>") initial)
                  (reachable_run _ _ reachable_initial))).
Defined.

(** *** The timer stops by itself *)

Lemma below_99_run : forallb below_99 (seq 1 77) = true /\ below_99 78 = false.
Proof. vm_compute. auto. Qed.

Lemma below_99_prefix n : (n <= 77)%nat -> forallb below_99 (seq 1 n) = true.
Proof.
  intros Hn. destruct below_99_run as [Hall _].
  replace 77%nat with (n + (77 - n))%nat in Hall by lia.
  rewrite seq_app, forallb_app in Hall.
  apply andb_true_iff in Hall as [Hall _]. exact Hall.
Qed.

Lemma handleAnalyze_starts_timer s :
  imageFiles s <> [] ->
  intervals (handleAnalyze s) !! nextTimer s = Some 0%Q
  /\ progressIntervalRef (handleAnalyze s) = Some (nextTimer s).
Proof.
  intros Hfiles. unfold handleAnalyze.
  destruct (imageFiles s) as [|f fs]; [contradiction|]. cbn [length Nat.eqb].
  unfold startProgressInterval, clearProgressInterval, clearInterval, fire_logUsageEvent.
  fields. destruct (progressIntervalRef s); fields; rewrite lookup_insert_eq; auto.
Qed.

Lemma counter_live s n :
  imageFiles s <> [] ->
  forallb below_99 (seq 1 n) = true ->
  intervals (ticks (nextTimer s) n (handleAnalyze s)) !! nextTimer s = Some (counter n)
  /\ progressIntervalRef (ticks (nextTimer s) n (handleAnalyze s)) = Some (nextTimer s).
Proof.
  intros Hfiles. induction n as [|n IH]; intros Hbelow.
  - cbn [ticks counter]. apply handleAnalyze_starts_timer. exact Hfiles.
  - rewrite seq_S, forallb_app in Hbelow. cbn [forallb] in Hbelow.
    apply andb_true_iff in Hbelow as [Hprefix Hlast].
    rewrite andb_true_r in Hlast.
    destruct (IH Hprefix) as [Hlive Href].
    cbn [ticks counter]. unfold tick. rewrite Hlive.
    unfold below_99 in Hlast. cbn [Nat.add counter] in Hlast.
    destruct (Qlt_le_dec (advance (counter n)) 99); [|discriminate].
    fields. rewrite lookup_insert_eq. auto.
Qed.

Lemma ticks_S id n s : ticks id (S n) s = tick id (ticks id n s).
Proof. reflexivity. Qed.


Lemma ticks_after_stop s n k :
  intervals (ticks (nextTimer s) n (handleAnalyze s)) !! nextTimer s = None ->
  ticks (nextTimer s) (k + n) (handleAnalyze s) = ticks (nextTimer s) n (handleAnalyze s).
Proof.
  intros Hdead. induction k as [|k IH]; [reflexivity|].
  cbn [Nat.add ticks]. rewrite IH. apply tick_dead. exact Hdead.
Qed.

Lemma tick_stops id i s :
  intervals s !! id = Some i ->
  progressIntervalRef s = Some id ->
  (99 <= advance i)%Q ->
  intervals (tick id s) !! id = None.
Proof.
  intros Hlive Href Hdone. unfold tick. rewrite Hlive.
  destruct (Qlt_le_dec (advance i) 99) as [Hlt|_]; [lra|].
  unfold clearProgressInterval, clearInterval. fields. rewrite Href. fields.
  apply lookup_delete_eq.
Qed.

Lemma below_99_false n : below_99 (S n) = false -> (99 <= advance (counter n))%Q.
Proof.
  unfold below_99. cbn [counter].
  destruct (Qlt_le_dec (advance (counter n)) 99); [discriminate|auto].
Qed.

Lemma last_emission : emitted (advance (counter 77)) = 99%Z.
Proof. vm_compute. reflexivity. Qed.

(** X8.  A run's timer is live through its first 77 firings, with the counter
    the source computes, and stops itself at the 78th, leaving progress at
    99; later firings of that handle do nothing. *)
Theorem progress_timer_stops (s : Session) (n : nat) :
  imageFiles s <> [] ->
  ((n < 78)%nat ->
   intervals (ticks (nextTimer s) n (handleAnalyze s)) !! nextTimer s = Some (counter n))
  /\ ((78 <= n)%nat ->
      intervals (ticks (nextTimer s) n (handleAnalyze s)) !! nextTimer s = None
      /\ progress (ticks (nextTimer s) n (handleAnalyze s)) = 99%Z).
Proof.
  intros Hfiles. split.
  - intros Hn. apply counter_live; [exact Hfiles | apply below_99_prefix; lia].
  - intros Hn.
    destruct (counter_live s 77 Hfiles (below_99_prefix 77 (Nat.le_refl _)))
      as [Hlive Href].
    assert (Hstop :
      intervals (ticks (nextTimer s) 78 (handleAnalyze s)) !! nextTimer s = None
      /\ progress (ticks (nextTimer s) 78 (handleAnalyze s)) = 99%Z).
    { rewrite (ticks_S (nextTimer s) 77).
      generalize dependent (ticks (nextTimer s) 77 (handleAnalyze s)).
      intros s77 Hlive Href. split.
      - apply (tick_stops _ _ _ Hlive Href).
        apply below_99_false, (proj2 below_99_run).
      - rewrite (tick_live _ _ _ Hlive). apply last_emission. }
    replace n with ((n - 78) + 78)%nat by lia.
    rewrite (ticks_after_stop s 78 (n - 78) (proj1 Hstop)). exact Hstop.
Qed.

Lemma progress_timer_stops_witness :
  intervals (ticks 1 30 (handleAnalyze (run uploaded initial))) !! 1%positive = Some (counter 30)
  /\ intervals (ticks 1 100 (handleAnalyze (run uploaded initial))) !! 1%positive = None
  /\ progress (ticks 1 100 (handleAnalyze (run uploaded initial))) = 99%Z.
Proof.
  assert (Hfiles : imageFiles (run uploaded initial) <> []) by (vm_compute; discriminate).
  destruct (progress_timer_stops (run uploaded initial) 30 Hfiles) as [Hlive _].
  destruct (progress_timer_stops (run uploaded initial) 100 Hfiles) as [_ Hstop].
  split; [apply Hlive; lia | apply Hstop; lia].
Defined.

(** *** The emitted sequence *)











(** *** Refused inputs *)

Lemma handleAnalyze_no_file (s : Session) :
  imageFiles s = [] ->
  handleAnalyze s
    = toast {| title := "No image selected";
               description := "Please upload a panorex image first";
               destructive := true |} s.
Proof. intros E. unfold handleAnalyze. rewrite E. reflexivity. Qed.

(** X9.  Without an image file [handleAnalyze] only shows its toast: no
    timer is started, no request is prepared, nothing is logged, and the
    analyzing flag, the progress value and a stored report stay. *)
Theorem handleAnalyze_without_file (s : Session) :
  imageFiles s = [] ->
  handleAnalyze s
    = toast {| title := "No image selected";
               description := "Please upload a panorex image first";
               destructive := true |} s
  /\ intervals (handleAnalyze s) = intervals s
  /\ awaitingClient (handleAnalyze s) = awaitingClient s
  /\ usageCalls (handleAnalyze s) = usageCalls s
  /\ isAnalyzing (handleAnalyze s) = isAnalyzing s
  /\ treatmentPlan (handleAnalyze s) = treatmentPlan s.
Proof.
  intros E. rewrite (handleAnalyze_no_file s E).
  unfold toast. fields. repeat split; reflexivity.
Qed.

Lemma handleAnalyze_without_file_witness :
  awaitingClient (handleAnalyze initial) = []
  /\ intervals (handleAnalyze initial) = ∅.
Proof.
  destruct (handleAnalyze_without_file initial eq_refl) as (_ & Hi & Ha & _).
  split; [exact Ha | exact Hi].
Defined.

(** X10.  A change event without a file changes nothing, whatever the
    validator would say.  A file that fails validation only produces the
    'Invalid file' toast: its description is the validator's message when
    there is a non-empty one and 'Invalid image file' when the message is
    missing or empty.  The current image, files and report stay, nothing is
    logged and no read is started. *)
Theorem handleImageUpload_rejected (f : File) (validation : Validation) (s : Session) :
  valid validation = false ->
  (forall any : Validation, handleImageUpload None any s = s)
  /\ (forall e,
        error validation = Some e -> nonempty e = true ->
        handleImageUpload (Some f) validation s
        = toast {| title := "Invalid file"; description := e; destructive := true |} s)
  /\ (error validation = None \/ error validation = Some "" ->
      handleImageUpload (Some f) validation s
      = toast {| title := "Invalid file"; description := "Invalid image file";
                 destructive := true |} s)
  /\ selectedImages (handleImageUpload (Some f) validation s) = selectedImages s
  /\ imageFiles (handleImageUpload (Some f) validation s) = imageFiles s
  /\ treatmentPlan (handleImageUpload (Some f) validation s) = treatmentPlan s
  /\ usageCalls (handleImageUpload (Some f) validation s) = usageCalls s
  /\ pendingReads (handleImageUpload (Some f) validation s) = pendingReads s
  /\ length (toasts (handleImageUpload (Some f) validation s)) = S (length (toasts s)).
Proof.
  intros Hinvalid. split; [reflexivity|].
  unfold handleImageUpload. rewrite Hinvalid. cbn [negb].
  split; [intros e -> ->; reflexivity|].
  split; [intros [-> | ->]; reflexivity|].
  unfold toast. fields. rewrite length_app. cbn [length].
  repeat split; try reflexivity. lia.
Qed.

Lemma handleImageUpload_rejected_witness :
  handleImageUpload (Some pano) {| valid := false; error := Some "" |}
      (run (reported "<p>ok</p>") initial)
    = toast {| title := "Invalid file"; description := "Invalid image file";
               destructive := true |}
        (run (reported "<p>ok</p>") initial)
  /\ handleImageUpload (Some pano)
       {| valid := false; error := Some "File size exceeds 10MB" |}
       (run (reported "<p>ok</p>") initial)
     = toast {| title := "Invalid file"; description := "File size exceeds 10MB";
                destructive := true |}
         (run (reported "<p>ok</p>") initial).
Proof.
  split.
  - refine (proj1 (proj2 (proj2
      (handleImageUpload_rejected pano {| valid := false; error := Some "" |}
         (run (reported "<p>ok</p>") initial) eq_refl))) _).
    right. reflexivity.
  - refine (proj1 (proj2
      (handleImageUpload_rejected pano
         {| valid := false; error := Some "File size exceeds 10MB" |}
         (run (reported "<p>ok</p>") initial) eq_refl)) _ eq_refl eq_refl).
Defined.

(** *** Clear All *)

Section ClearAll.
Variable sanitizeHtml : string -> string.

(** X11.  From any reachable state Clear All leaves no image, no file, no
    report, progress 0 and no live timer, and the page then renders no image,
    no Generate, Export or Clear All button and the placeholder.  It does not
    touch the analyzing flag and does not cancel an analysis under way. *)
Theorem handleClearAll_resets_page (s : Session) :
  reachable s ->
  selectedImages (handleClearAll s) = []
  /\ imageFiles (handleClearAll s) = []
  /\ treatmentPlan (handleClearAll s) = ""
  /\ progress (handleClearAll s) = 0%Z
  /\ intervals (handleClearAll s) = ∅
  /\ renderReport sanitizeHtml (handleClearAll s) = Placeholder
  /\ clearAllButton (renderControls (handleClearAll s)) = None
  /\ image (renderControls (handleClearAll s)) = None
  /\ analyzeButton (renderControls (handleClearAll s)) = None
  /\ exportButton (renderControls (handleClearAll s)) = None
  /\ isAnalyzing (handleClearAll s) = isAnalyzing s
  /\ unsettled (handleClearAll s) = unsettled s.
Proof.
  intros Hs. destruct (handleClearAll_stops_timer s Hs) as [Htimers Hflag].
  rewrite Htimers, Hflag.
  unfold renderReport, renderControls, has_image, unsettled, handleClearAll,
    clearProgressInterval, clearInterval, toast.
  fields. destruct (progressIntervalRef s); fields; cbn; repeat split; reflexivity.
Qed.

End ClearAll.

Lemma handleClearAll_resets_page_witness :
  treatmentPlan (handleClearAll (run (reported "<p>ok</p>") initial)) = ""
  /\ intervals (handleClearAll (run (reported "<p>ok</p>") initial)) = ∅
  /\ exportButton (renderControls (handleClearAll (run (reported "<p>ok</p>") initial)))
     = None.
Proof.
  destruct (handleClearAll_resets_page SpecSanitizer.sanitizeHtml
              (run (reported "<p>ok</p>") initial)
              (reachable_run _ _ reachable_initial))
    as (_ & _ & Hplan & _ & Htimers & _ & _ & _ & _ & Hexport & _).
  split; [exact Hplan | split; [exact Htimers | exact Hexport]].
Defined.

(** Clear All does not cancel a file read either: when the read completes
    afterwards the image comes back without its file. *)
Lemma clear_then_loaded (result : string) (s : Session) (n : nat) :
  pendingReads s = S n ->
  selectedImages (readerLoaded result (handleClearAll s)) = [result]
  /\ imageFiles (readerLoaded result (handleClearAll s)) = []
  /\ isAnalyzing (readerLoaded result (handleClearAll s)) = isAnalyzing s.
Proof.
  intros Hread. unfold readerLoaded, handleClearAll, clearProgressInterval,
    clearInterval, toast.
  fields. destruct (progressIntervalRef s); fields; rewrite Hread; fields; auto.
Qed.

(** X12.  A file read that is still pending when Clear All runs is not
    cancelled: when it completes, the image is shown again but its file is
    gone, so the page offers Generate (unless an analysis is under way) and
    [handleAnalyze] answers the click with its 'No image selected' toast
    only. *)
Theorem clear_all_keeps_pending_read (result : string) (s : Session) (n : nat) :
  pendingReads s = S n ->
  isAnalyzing s = false ->
  selectedImages (readerLoaded result (handleClearAll s)) = [result]
  /\ imageFiles (readerLoaded result (handleClearAll s)) = []
  /\ enabled (readerLoaded result (handleClearAll s)) EAnalyze = true
  /\ handleAnalyze (readerLoaded result (handleClearAll s))
     = toast {| title := "No image selected";
                description := "Please upload a panorex image first";
                destructive := true |}
         (readerLoaded result (handleClearAll s)).
Proof.
  intros Hread Hidle.
  destruct (clear_then_loaded result s n Hread) as (Himg & Hfiles & Hflag).
  split; [exact Himg|]. split; [exact Hfiles|]. split.
  - unfold enabled, renderControls, has_image. cbn [analyzeButton].
    rewrite Himg, Hflag, Hidle. reflexivity.
  - apply handleAnalyze_no_file. exact Hfiles.
Qed.

Lemma clear_all_keeps_pending_read_witness :
  admissible
    (uploaded ++ [EUpload (Some pano) accepted; EClearAll; EReaderLoaded pano_url]) initial
  = true
  /\ selectedImages
       (readerLoaded pano_url
          (handleClearAll (run (uploaded ++ [EUpload (Some pano) accepted]) initial)))
     = [pano_url]
  /\ imageFiles
       (readerLoaded pano_url
          (handleClearAll (run (uploaded ++ [EUpload (Some pano) accepted]) initial)))
     = []
  /\ enabled
       (readerLoaded pano_url
          (handleClearAll (run (uploaded ++ [EUpload (Some pano) accepted]) initial)))
       EAnalyze
     = true.
Proof.
  split; [vm_compute; reflexivity|].
  destruct (clear_all_keeps_pending_read pano_url
              (run (uploaded ++ [EUpload (Some pano) accepted]) initial) 0
              eq_refl eq_refl)
    as (Himg & Hfiles & Hen & _).
  split; [exact Himg | split; [exact Hfiles | exact Hen]].
Defined.

(** *** The usage trace *)

Lemma count_calls_snoc name calls c :
  count_calls name (calls ++ [c])
  = (count_calls name calls + if decide (call_eventType c = name) then 1 else 0)%nat.
Proof.
  unfold count_calls. rewrite filter_app, length_app. f_equal.
  rewrite filter_cons, filter_nil. case_decide; reflexivity.
Qed.

(** X13.  The page never logs more analysis outcomes than analyses it has
    started: the [analysis_success] and [analysis_error] calls made so far,
    together with the analyses still waiting for the client, in flight or
    waiting for the 500 ms callback, never exceed the [analysis_start]
    calls. *)
Theorem outcomes_follow_starts (s : Session) :
  reachable s ->
  (count_calls "analysis_success" (usageCalls s)
   + count_calls "analysis_error" (usageCalls s)
   + unsettled s
   <= count_calls "analysis_start" (usageCalls s))%nat.
Proof.
  unfold unsettled.
  induction 1 as [|e s _ IH]; [cbn; lia|].
  destruct e; cbn [step]; by_handler;
    rewrite ?count_calls_snoc; cbn [call_eventType];
    repeat case_decide; try discriminate; try congruence;
    len_facts; lia.
Qed.

Lemma outcomes_follow_starts_witness :
  (count_calls "analysis_success" (usageCalls (run (reported "<p>ok</p>") initial))
   + count_calls "analysis_error" (usageCalls (run (reported "<p>ok</p>") initial))
   + unsettled (run (reported "<p>ok</p>") initial)
   <= count_calls "analysis_start" (usageCalls (run (reported "<p>ok</p>") initial)))%nat.
Proof.
  apply (outcomes_follow_starts (run (reported "<p>ok</p>") initial)).
  apply reachable_run. constructor.
Defined.

(** *** PDF export *)

Lemma map_fst_imap {A B} (g : nat -> A -> B) (l : list A) :
  map fst (imap (fun i x => (x, g i x)) l) = l.
Proof.
  revert g. induction l as [|x l IH]; intros g; [reflexivity|].
  cbn. f_equal. exact (IH (fun i => g (S i))).
Qed.

(** X14.  An export that is started with a report and then settles always
    ends with [isPdfGenerating] off and exactly one [generatePDF] call, made
    with the stored report as it is.  On success the dialog stays open in its
    success state and [pdf_export_start], [pdf_export_success] are logged; on
    a false result or a rejection the dialog is closed, one toast is shown and
    [pdf_export_start], [pdf_export_error] are logged, the latter with
    'PDF generation failed' or the message of the rejection. *)
Theorem export_settles (s : Session) (o : PdfOutcome) :
  nonempty (treatmentPlan s) = true ->
  isPdfGenerating (exported o s) = false
  /\ pendingPdf (exported o s) = pendingPdf s
  /\ treatmentPlan (exported o s) = treatmentPlan s
  /\ (exists request,
        pdfCalls (exported o s) = pdfCalls s ++ [request]
        /\ pdf_content request = treatmentPlan s
        /\ map fst (pdf_images request) = selectedImages s)
  /\ (pdfFailure o = None ->
      pdfSuccess (exported o s) = true
      /\ showPdfDialog (exported o s) = true
      /\ toasts (exported o s) = toasts s
      /\ map call_eventType (usageCalls (exported o s))
         = map call_eventType (usageCalls s) ++ ["pdf_export_start"; "pdf_export_success"])
  /\ (forall e,
        pdfFailure o = Some e ->
        pdfSuccess (exported o s) = false
        /\ showPdfDialog (exported o s) = false
        /\ length (toasts (exported o s)) = S (length (toasts s))
        /\ usageCalls (exported o s)
           = usageCalls s
               ++ [{| call_eventType := "pdf_export_start";
                      call_metadata := JUndefined;
                      call_errorMessage := None |};
                   {| call_eventType := "pdf_export_error";
                      call_metadata := JNull;
                      call_errorMessage := Some (errorMessageOf e) |}]).
Proof.
  intros Hplan. unfold exported, handleGeneratePDF. rewrite Hplan. cbn [negb].
  unfold pdfSettled, fire_logUsageEvent. fields.
  destruct o as [[|]|e]; unfold pdfCatch, toast, fire_logUsageEvent; fields;
    (split; [reflexivity|]); (split; [reflexivity|]); (split; [reflexivity|]);
    (split; [eexists; split; [reflexivity|]; split; [reflexivity|]; apply map_fst_imap|]);
    cbn [pdfFailure]; split; intros; simplify_eq;
    rewrite ?map_app, ?length_app, <- ?app_assoc; cbn; repeat split; try reflexivity; lia.
Qed.

Lemma export_settles_witness :
  isPdfGenerating (exported (PdfResolved false) (run (reported "<p>ok</p>") initial)) = false
  /\ showPdfDialog (exported (PdfResolved false) (run (reported "<p>ok</p>") initial)) = false
  /\ last (usageCalls (exported (PdfResolved false) (run (reported "<p>ok</p>") initial)))
     = Some {| call_eventType := "pdf_export_error";
               call_metadata := JNull;
               call_errorMessage := Some "PDF generation failed" |}.
Proof.
  destruct (export_settles (run (reported "<p>ok</p>") initial) (PdfResolved false) eq_refl)
    as (Hgen & _ & _ & _ & _ & Hfail).
  destruct (Hfail _ eq_refl) as (_ & Hdialog & _ & Hcalls).
  split; [exact Hgen|]. split; [exact Hdialog|].
  rewrite Hcalls. vm_compute. reflexivity.
Defined.

(** X15.  Every call the page has made to [generatePDF] carries a non-empty
    report, the fixed title and file name, and at most one image, captioned
    'Pano'. *)
Theorem pdf_requests_wellformed (s : Session) (request : PdfRequest) :
  reachable s ->
  request ∈ pdfCalls s ->
  nonempty (pdf_content request) = true
  /\ pdf_title request = "Orthodontic Treatment Plan"
  /\ pdf_fileName request = "orthodontic-treatment-plan"
  /\ (pdf_images request = [] \/ exists src, pdf_images request = [(src, "Pano")]).
Proof.
  intros Hs. revert request.
  induction Hs as [|e s Hs IH]; intros request Hin.
  - cbn in Hin. apply elem_of_nil in Hin. contradiction.
  - destruct (images_bounded s Hs) as [Himages _].
    destruct e; cbn [step] in Hin; revert Hin; by_handler; intros Hin;
      try (apply IH; exact Hin).
    apply elem_of_app in Hin as [Hin|Hin]; [apply IH; exact Hin|].
    apply list_elem_of_singleton in Hin. subst request. cbn.
    match goal with H : negb (nonempty _) = false |- _ => apply negb_false_iff in H end.
    repeat split; [assumption|].
    destruct (selectedImages s) as [|x [|y l]]; cbn in *; [left| right; eexists | lia];
      reflexivity.
Qed.

Lemma pdf_requests_wellformed_witness :
  pdf_images {| pdf_title := "Orthodontic Treatment Plan";
                pdf_fileName := "orthodontic-treatment-plan";
                pdf_content := "<p>ok</p>";
                pdf_images := [(pano_url, "Pano")] |} = []
  \/ exists src,
       pdf_images {| pdf_title := "Orthodontic Treatment Plan";
                     pdf_fileName := "orthodontic-treatment-plan";
                     pdf_content := "<p>ok</p>";
                     pdf_images := [(pano_url, "Pano")] |} = [(src, "Pano")].
Proof.
  assert (Hin : {| pdf_title := "Orthodontic Treatment Plan";
                   pdf_fileName := "orthodontic-treatment-plan";
                   pdf_content := "<p>ok</p>";
                   pdf_images := [(pano_url, "Pano")] |}
                ∈ pdfCalls (run (reported "<p>ok</p>" ++ [EGeneratePDF]) initial)).
  { vm_compute. apply list_elem_of_here. }
  exact (proj2 (proj2 (proj2
    (pdf_requests_wellformed _ _ (reachable_run _ _ reachable_initial) Hin)))).
Defined.

Lemma enabled_export s :
  enabled s EGeneratePDF = true ->
  isPdfGenerating s = false /\ nonempty (treatmentPlan s) = true.
Proof.
  unfold enabled, renderControls; cbn [exportButton].
  destruct (nonempty (treatmentPlan s)), (isPdfGenerating s); cbn; intros; auto;
    discriminate.
Qed.

(** X16.  Through the rendered page at most one export is pending; while it
    is pending [isPdfGenerating] is on and the dialog is not in its success
    state, so Export is disabled and the dialog cannot be closed.  Export can
    only be clicked when a report is stored and no export is pending. *)
Theorem export_button_gates_single_flight (s : Session) :
  ui_reachable s ->
  (pendingPdf s <= 1)%nat
  /\ (pendingPdf s = 1%nat ->
      isPdfGenerating s = true /\ pdfSuccess s = false
      /\ enabled s EGeneratePDF = false /\ enabled s EDialogClose = false)
  /\ (enabled s EGeneratePDF = true ->
      nonempty (treatmentPlan s) = true /\ pendingPdf s = 0%nat).
Proof.
  intros Hs.
  assert (Hinv : (pendingPdf s <= 1)%nat
                 /\ (pendingPdf s = 1%nat -> isPdfGenerating s = true /\ pdfSuccess s = false)).
  { induction Hs as [|e s _ [IHn IHon] Hen]; [cbn; split; [lia|discriminate]|].
    destruct e; cbn [step].
    all: try (apply enabled_export in Hen as [Hoff Hplan]).
    all: try (unfold enabled, renderControls in Hen; cbn [dialogCloseButton] in Hen;
              apply andb_true_iff in Hen as [_ Hen]).
    all: by_handler; simplify_eq; cbn [negb andb] in *;
      repeat match goal with
             | H : _ && _ = true |- _ => apply andb_true_iff in H as [? ?]
             end;
      (split;
       [ first [ lia
               | destruct (pendingPdf s) as [|[|?]];
                 [lia | destruct IHon; [reflexivity|congruence] | lia] ]
       | intros Hpending;
         first [ exact (IHon Hpending)
               | split; reflexivity
               | exfalso; lia
               | exfalso; destruct (IHon Hpending); congruence ] ]). }
  destruct Hinv as [Hn Hon]. split; [exact Hn|]. split.
  - intros Hpending. destruct (Hon Hpending) as [Hgen Hsucc].
    split; [exact Hgen|]. split; [exact Hsucc|].
    unfold enabled, renderControls; cbn [exportButton dialogCloseButton].
    rewrite Hgen, Hsucc, andb_false_r.
    destruct (nonempty (treatmentPlan s)); auto.
  - intros Hen. apply enabled_export in Hen as [Hoff Hplan].
    split; [exact Hplan|].
    destruct (pendingPdf s) as [|[|n]] eqn:Hp; [reflexivity| |lia].
    destruct (Hon eq_refl). congruence.
Qed.

Lemma export_button_gates_single_flight_witness :
  (pendingPdf (run (reported "<p>ok</p>" ++ [EGeneratePDF]) initial) <= 1)%nat
  /\ enabled (run (reported "<p>ok</p>" ++ [EGeneratePDF]) initial) EGeneratePDF = false.
Proof.
  destruct (export_button_gates_single_flight
              (run (reported "<p>ok</p>" ++ [EGeneratePDF]) initial))
    as (Hn & Hon & _).
  - apply ui_reachable_run; [constructor | vm_compute; reflexivity].
  - split; [exact Hn|]. apply Hon. vm_compute. reflexivity.
Defined.

(** *** Images and request bodies *)

Lemma ui_reachable_is_reachable s : ui_reachable s -> reachable s.
Proof. induction 1; constructor; assumption. Qed.

Lemma enabled_analyze_image s :
  enabled s EAnalyze = true -> selectedImages s <> [].
Proof.
  unfold enabled, renderControls, has_image; cbn [analyzeButton].
  destruct (selectedImages s); cbn; [discriminate|]. intros _. discriminate.
Qed.

Lemma bodies_step e s body :
  body ∈ awaitingClient (step e s) ++ inflight (step e s) ->
  body ∈ awaitingClient s ++ inflight s \/ (e = EAnalyze /\ body = selectedImages s).
Proof.
  destruct e; cbn [step]; by_handler; intros Hin; try (left; exact Hin);
    repeat match goal with
           | H : awaitingClient s = _ |- _ => progress (try rewrite H in Hin; try rewrite H)
           | H : inflight s = _ |- _ => progress (try rewrite H in Hin; try rewrite H)
           end;
    revert Hin; rewrite ?elem_of_app, ?elem_of_cons, ?elem_of_nil; tauto.
Qed.

Lemma bodies_bounded s :
  reachable s ->
  forall body, body ∈ awaitingClient s ++ inflight s -> (length body <= 1)%nat.
Proof.
  induction 1 as [|e s Hs IH]; intros body Hin.
  - cbn in Hin. apply elem_of_nil in Hin. contradiction.
  - destruct (bodies_step e s body Hin) as [Hold | [_ ->]].
    + apply IH. exact Hold.
    + apply (images_bounded s Hs).
Qed.

(** X17.  However [handleAnalyze] is called, a request never carries more
    than one image; when it is started through the rendered page it carries
    exactly one. *)
Theorem request_carries_one_image (s : Session) (body : list string) :
  ui_reachable s ->
  body ∈ awaitingClient s ++ inflight s ->
  exists url, body = [url].
Proof.
  intros Hs. revert body.
  induction Hs as [|e s Hs IH Hen]; intros body Hin.
  - cbn in Hin. apply elem_of_nil in Hin. contradiction.
  - destruct (bodies_step e s body Hin) as [Hold | [-> ->]].
    + apply IH. exact Hold.
    + apply enabled_analyze_image in Hen.
      destruct (images_bounded s (ui_reachable_is_reachable s Hs)) as [Hle _].
      destruct (selectedImages s) as [|url [|url' rest]];
        [contradiction | eexists; reflexivity | cbn in Hle; lia].
Qed.

Lemma request_carries_one_image_witness :
  exists url, [pano_url] = [url].
Proof.
  apply (request_carries_one_image (run requested initial) [pano_url]).
  - apply ui_reachable_run; [constructor | vm_compute; reflexivity].
  - vm_compute. apply list_elem_of_here.
Defined.

(** X18.  An accepted upload followed by the completion of its read replaces
    the session's image wholesale: exactly that file and that data URL are
    held, a report from an earlier image is dropped, and one [upload] event
    is logged with the file's type and size. *)
Theorem upload_replaces_image
    (f : File) (validation : Validation) (result : string) (s : Session) :
  valid validation = true ->
  selectedImages (readerLoaded result (handleImageUpload (Some f) validation s)) = [result]
  /\ imageFiles (readerLoaded result (handleImageUpload (Some f) validation s)) = [f]
  /\ treatmentPlan (readerLoaded result (handleImageUpload (Some f) validation s)) = ""
  /\ pendingReads (readerLoaded result (handleImageUpload (Some f) validation s))
     = pendingReads s
  /\ usageCalls (readerLoaded result (handleImageUpload (Some f) validation s))
     = usageCalls s
         ++ [{| call_eventType := "upload";
                call_metadata :=
                  JObj [("fileType", JStr (file_type f)); ("fileSize", JNum (file_size f))];
                call_errorMessage := None |}]
  /\ isAnalyzing (readerLoaded result (handleImageUpload (Some f) validation s))
     = isAnalyzing s.
Proof.
  intros Hvalid. unfold handleImageUpload. rewrite Hvalid. cbn [negb].
  unfold readerLoaded, fire_logUsageEvent. fields. repeat split; reflexivity.
Qed.

Lemma upload_replaces_image_witness :
  selectedImages
    (readerLoaded "data:image/png;base64,AAAA"
       (handleImageUpload (Some pano) accepted (run (reported "<p>ok</p>") initial)))
  = ["data:image/png;base64,AAAA"]
  /\ treatmentPlan
       (readerLoaded "data:image/png;base64,AAAA"
          (handleImageUpload (Some pano) accepted (run (reported "<p>ok</p>") initial)))
     = "".
Proof.
  destruct (upload_replaces_image pano accepted "data:image/png;base64,AAAA"
              (run (reported "<p>ok</p>") initial) eq_refl)
    as (Himg & _ & Hplan & _).
  split; [exact Himg | exact Hplan].
Defined.

End MorePageFacts.

(** ** The sign-in page *)

Section AuthFacts.
Import Auth Coverage.


Lemma getSupabaseClient_outcome env w :
  (Scenario.client_available env w = true
   /\ exists w', Logger.getSupabaseClient env w = (Returned Logger.supabase, w'))
  \/ (Scenario.client_available env w = false
      /\ exists e, Logger.getSupabaseClient env w = (Thrown e, w)).
Proof.
  destruct (Scenario.client_available env w) eqn:Hav.
  - left. split; [reflexivity|].
    destruct (getSupabaseClient_available env w Hav) as (w' & Hc & _). eauto.
  - right. split; [reflexivity|]. revert Hav.
    unfold Scenario.client_available, Logger.getSupabaseClient, bind, gets, ret, modify, throw.
    destruct (Logger.cachedClient w); [discriminate|].
    destruct (truthy (Logger.VITE_SUPABASE_URL env)),
             (truthy (Logger.VITE_SUPABASE_PUBLISHABLE_KEY env)); cbn; eauto.
    destruct (Logger.import_client env); [eauto|discriminate].
Qed.

Ltac run_handleAuth env p :=
  unfold handleAuth, try_finally, try_catch, call_auth, in_browser,
    bind, gets, modify, ret, throw;
  cbn [browser setLoading];
  destruct (getSupabaseClient_outcome (backend env) (browser p))
    as [[Hav (w' & Hclient)] | [Hav (e0 & Hclient)]];
  rewrite Hclient;
  destruct (isLogin p) eqn:Hmode, (auth_outcome env) as [error|e] eqn:Hout;
  try destruct (truthy error) eqn:Herror;
  cbn.

(** X19.  Whatever the configuration and however the call to
    [supabase.auth] settles, [handleAuth] returns normally with [loading]
    off, shows exactly one toast and has made at most one call; the typed
    e-mail address and password are left as they are. *)
Theorem handleAuth_settles (env : AuthEnv) (p : Page) :
  (handleAuth env p).1 = Returned tt
  /\ loading (handleAuth env p).2 = false
  /\ length (authToasts (handleAuth env p).2) = S (length (authToasts p))
  /\ (length (authCalls (handleAuth env p).2) <= S (length (authCalls p)))%nat
  /\ email (handleAuth env p).2 = email p
  /\ password (handleAuth env p).2 = password p.
Proof.
  run_handleAuth env p; rewrite ?length_app; cbn; repeat split; first [reflexivity | lia].
Qed.



(** *** The session effect *)

Lemma effect_step_keeps ev e :
  unsubscribed e = 0%nat /\ (cleanupQueued e = true -> isMounted e = false) ->
  (unsubscribed (effect_step ev e) = 0%nat
   /\ (cleanupQueued (effect_step ev e) = true -> isMounted (effect_step ev e) = false))
  /\ (listening e = true -> listening (effect_step ev e) = true).
Proof.
  intros [Hnone Hqueued].
  unfold effect_step, returnedCleanup, subscribe, initFailed, set_stage, navigate.
  destruct ev as [[error|]|[session|error]|session| |];
    destruct (stage e) as [| |[|]]; cbn;
    destruct (isMounted e) eqn:Hm, (cleanupQueued e) eqn:Hq, (listening e) eqn:Hl;
    try destruct session; cbn;
    repeat split; intros; try assumption; try reflexivity; try discriminate;
    try (specialize (Hqueued eq_refl); discriminate); congruence.
Qed.

Lemma effect_run_keeps evs e :
  unsubscribed e = 0%nat /\ (cleanupQueued e = true -> isMounted e = false) ->
  (unsubscribed (effect_run evs e) = 0%nat
   /\ (cleanupQueued (effect_run evs e) = true -> isMounted (effect_run evs e) = false))
  /\ (listening e = true -> listening (effect_run evs e) = true).
Proof.
  revert e. induction evs as [|ev evs IH]; intros e Hinv; [cbn; tauto|].
  destruct (effect_step_keeps ev e Hinv) as [Hinv' Hlisten].
  destruct (IH (effect_step ev e) Hinv') as [Hinv'' Hlisten'].
  cbn. split; [exact Hinv''|]. auto.
Qed.

(** X21.  The session effect never unsubscribes: its cleanup clears
    [isMounted] before it calls the function [initAuth] returned, and that
    function unsubscribes only while [isMounted] holds.  So, whatever happens
    after mounting, [unsubscribe] has not been called, a registered listener
    stays registered, and a session it reports still navigates, also after
    the page has been unmounted. *)
Theorem effect_never_unsubscribes (evs evs' : list EffectEvent) :
  unsubscribed (effect_run evs mounted) = 0%nat
  /\ (listening (effect_run evs mounted) = true ->
      listening (effect_run evs' (effect_run evs mounted)) = true
      /\ navigations (effect_step (AuthStateChange true) (effect_run evs mounted))
         = navigations (effect_run evs mounted) ++ ["/ortho-internal-stats"]).
Proof.
  assert (Hstart : unsubscribed mounted = 0%nat
                   /\ (cleanupQueued mounted = true -> isMounted mounted = false)).
  { cbn. split; [reflexivity | discriminate]. }
  destruct (effect_run_keeps evs mounted Hstart) as [[Hnone Hqueued] _].
  split; [exact Hnone|]. intros Hlisten. split.
  - apply (effect_run_keeps evs' (effect_run evs mounted)); [split; assumption | exact Hlisten].
  - unfold effect_step. rewrite Hlisten.
    destruct (stage (effect_run evs mounted)); reflexivity.
Qed.

(** A page that is unmounted after its listener was registered: the listener
    outlives it and navigates. *)
Example effect_outlives_page :
  listening (effect_run [ClientSettled None; SessionSettled (Returned false);
                         Unmount; ThenCallback] mounted) = true
  /\ navigations (effect_run [ClientSettled None; SessionSettled (Returned false);
                              Unmount; ThenCallback; AuthStateChange true] mounted)
     = ["/ortho-internal-stats"].
Proof. vm_compute. auto. Qed.

End AuthFacts.

(** ** Roles and row-level security *)

Section RoleFacts.
Import Roles.

Lemma filter_all {A} (f : A -> bool) (l : list A) :
  (forall x, f x = true) -> List.filter f l = l.
Proof.
  intros Hf. induction l as [|x l IH]; [reflexivity|].
  cbn. rewrite Hf, IH. reflexivity.
Qed.

Lemma filter_none {A} (f : A -> bool) (l : list A) :
  (forall x, f x = false) -> List.filter f l = [].
Proof.
  intros Hf. induction l as [|x l IH]; [reflexivity|].
  cbn. rewrite Hf. exact IH.
Qed.

Lemma update_rows_untouched touches assign done todo :
  (forall r, touches r = false) ->
  update_rows touches assign done todo = Some (done ++ todo).
Proof.
  intros Hnone. revert done. induction todo as [|r rest IH]; intros done.
  - cbn. rewrite app_nil_r. reflexivity.
  - cbn. rewrite Hnone, IH, <- app_assoc. reflexivity.
Qed.

(** A swap of the two roles of one user, which the database refuses at the
    first row, fails in the model too and leaves the table as it was. *)
Example admin_swap_fails :
  run_statement (Authenticated 1)
    (UpdateRoles (fun r => (user_id r =? 7)%N)
       (fun r => {| user_id := user_id r;
                    role := match role r with
                            | user => moderator | moderator => user | admin => admin
                            end |}))
    [{| user_id := 1; role := admin |};
     {| user_id := 7; role := user |}; {| user_id := 7; role := moderator |}]
  = [{| user_id := 1; role := admin |};
     {| user_id := 7; role := user |}; {| user_id := 7; role := moderator |}].
Proof. reflexivity. Qed.

Lemma non_admin_statement (c : Caller) (st : RoleStatement) (t : list user_role) :
  is_admin t c = false -> run_statement c st t = t.
Proof.
  intros Hc. destruct st as [r|matching|matching assign]; cbn; rewrite Hc; cbn.
  - reflexivity.
  - apply filter_all. reflexivity.
  - rewrite (update_rows_untouched (fun _ => false) assign [] t); reflexivity.
Qed.

(** X22.  Nobody can grant, change or revoke a role without being an admin
    already: a sequence of statements on [user_roles], each run by a caller
    who is not an admin in the table as it stands, leaves the table exactly
    as it was.  In particular an authenticated user cannot give themselves
    the [admin] role, and [anon] can do nothing. *)
Theorem roles_need_an_admin (sts : list (Caller * RoleStatement)) (t : list user_role) :
  (forall cs, cs ∈ sts -> is_admin t (fst cs) = false) ->
  run_statements sts t = t.
Proof.
  induction sts as [|[c st] sts IH]; intros Hnon; [reflexivity|].
  cbn. rewrite (non_admin_statement c st t).
  - apply IH. intros cs Hin. apply Hnon. apply list_elem_of_further. exact Hin.
  - apply (Hnon (c, st)). apply list_elem_of_here.
Qed.

Lemma roles_need_an_admin_witness :
  run_statements
    [(Authenticated 7, InsertRole {| user_id := 7; role := admin |});
     (Anon, DeleteRoles (fun _ => true));
     (Authenticated 7,
      UpdateRoles (fun r => (user_id r =? 7)%N)
                  (fun r => {| user_id := user_id r; role := admin |}))]
    [{| user_id := 7; role := user |}; {| user_id := 1; role := admin |}]
  = [{| user_id := 7; role := user |}; {| user_id := 1; role := admin |}].
Proof.
  apply roles_need_an_admin.
  intros cs Hin. repeat (apply elem_of_cons in Hin as [->|Hin]; [reflexivity|]).
  apply elem_of_nil in Hin. contradiction.
Defined.

(** X23.  What a caller can read.  An admin reads every role and every usage
    log.  Anyone else reads no usage log at all, and of the roles only rows
    that carry their own identifier; [anon] reads nothing. *)
Theorem read_access (t : list user_role) (c : Caller) (logs : list Logger.UsageRecord) :
  (is_admin t c = true ->
   select_roles t c = t /\ select_logs t c logs = logs)
  /\ (is_admin t c = false ->
      select_logs t c logs = []
      /\ (forall r, In r (select_roles t c) -> c = Authenticated (user_id r))
      /\ (c = Anon -> select_roles t c = [])).
Proof.
  unfold select_roles, select_logs. split; intros Hc; rewrite Hc.
  - split; apply filter_all; intros; [apply orb_true_r | reflexivity].
  - split; [apply filter_none; reflexivity|]. split.
    + intros r Hin. apply filter_In in Hin as [_ Hown].
      rewrite orb_false_r in Hown. destruct c as [|uid]; [discriminate|].
      cbn in Hown. apply N.eqb_eq in Hown. congruence.
    + intros ->. apply filter_none. reflexivity.
Qed.

End RoleFacts.

(** ** The stand-in sanitizer at a few inputs *)

Example sanitizer_drops_handlers :
  SpecSanitizer.sanitizeHtml
    "<P onclick='x()'>hi<br/><img src=x onerror=alert(1)><b>bold</b></P>"
  = "<p>hi<br><b>bold</b></p>".
Proof. vm_compute. reflexivity. Qed.

Example sanitizer_nested_script :
  SpecSanitizer.sanitizeHtml "<scr<script></script>ipt>alert(1)</script>" = "ipt>alert(1)"
  /\ SpecSanitizer.sanitizeHtml "ipt>alert(1)" = "ipt>alert(1)"
  /\ SpecSanitizer.sanitizeHtml "<SCRIPT>x</SCRIPT><h2 class='t'>Plan</h2>" = "<h2>Plan</h2>"
  /\ SpecSanitizer.sanitizeHtml "<h2>Plan</h2>" = "<h2>Plan</h2>".
Proof. vm_compute. repeat split; reflexivity. Qed.
